(** * convert-llama-ggmlv3-to-gguf.py: a shallow embedding of the GGJTv3 decoder
    and of the GGUF transcoder, with the properties of its specification. *)

From Stdlib Require Import ZArith Lia Ascii.
From Stdlib Require String.
From stdpp Require Import base list gmap strings.

Open Scope Z_scope.

(* ------------------------------------------------------------------------- *)
(** ** Python errors and the error monad *)

(** The exceptions the script can raise.  [OutOfFuel] is not a Python
    exception: it marks a [while] loop that has not finished within the
    iteration budget given to the model. *)
Inductive py_error :=
| StructError                (* struct.unpack on a slice of the wrong length *)
| AssertionError (msg : string)
| ValueError (msg : string)
| TypeError                  (* slicing or [&] with a float *)
| IndexError                 (* tuple index out of range *)
| UnboundLocalError          (* a local read before any assignment *)
| UnicodeDecodeError         (* str(b, 'UTF-8') on bytes that are not UTF-8 *)
| ZeroDivisionError          (* [//] on Python ints with a zero divisor *)
| OverflowError              (* [float(n)] on an int too large for a double *)
| OutOfFuel.

Inductive result (A : Type) :=
| Ok (a : A)
| Err (e : py_error).
Arguments Ok {A} a.
Arguments Err {A} e.

Definition bind {A B} (m : result A) (k : A -> result B) : result B :=
  match m with Ok a => k a | Err e => Err e end.

Notation "'let*' x ':=' m 'in' k" := (bind m (fun x => k))
  (at level 200, x name, m at level 100, k at level 200).

(** [assert c, msg] *)
Definition py_assert (c : bool) (msg : string) : result unit :=
  if c then Ok tt else Err (AssertionError msg).

(* ------------------------------------------------------------------------- *)
(** ** Python and numpy numbers *)

(** The cursor of the decoder starts as a Python [int]; it becomes a numpy
    [int64] once a tensor byte length computed by [np.prod] is added to it,
    and a float when the tensor has no dimension ([np.prod(())] is the float
    [1.0]).  Float values met here are integral; they are kept exact (they
    only reach a comparison with [len(data)], which rounding cannot flip, or
    a slicing, which raises [TypeError] whatever the value). *)
Inductive num_kind := KInt | KI64 | KFloat.

Record pynum := PyNum { kind : num_kind; val : Z }.

Definition wrap64 (z : Z) : Z := (z + 2 ^ 63) mod 2 ^ 64 - 2 ^ 63.

Definition join_kind (a b : num_kind) : num_kind :=
  match a, b with
  | KFloat, _ | _, KFloat => KFloat
  | KI64, _ | _, KI64 => KI64
  | KInt, KInt => KInt
  end.

Definition mk_num (k : num_kind) (z : Z) : pynum :=
  PyNum k (match k with KI64 => wrap64 z | _ => z end).

Definition pint (z : Z) : pynum := PyNum KInt z.

Definition padd (a b : pynum) : pynum := mk_num (join_kind (kind a) (kind b)) (val a + val b).
Definition psub (a b : pynum) : pynum := mk_num (join_kind (kind a) (kind b)) (val a - val b).
Definition pmul (a b : pynum) : pynum := mk_num (join_kind (kind a) (kind b)) (val a * val b).
(** [//]: floor division for ints, int64 and (integral) floats alike. *)
Definition pfloordiv (a b : pynum) : pynum :=
  mk_num (join_kind (kind a) (kind b)) (val a / val b).
(** [&]: a [TypeError] on a float. *)
Definition pland (a b : pynum) : result pynum :=
  match join_kind (kind a) (kind b) with
  | KFloat => Err TypeError
  | k => Ok (mk_num k (Z.land (val a) (val b)))
  end.

(** [np.prod(dims)] for a tuple of Python ints below [2^32]: an [int64]
    product with wrap-around, the float [1.0] for the empty tuple. *)
Definition np_prod (dims : list Z) : pynum :=
  match dims with
  | [] => PyNum KFloat 1
  | _ => PyNum KI64 (fold_left (fun acc d => wrap64 (acc * d)) dims 1)
  end.

(* ------------------------------------------------------------------------- *)
(** ** Byte buffers *)

(** A byte buffer ([np.memmap] or [bytes]) is a [string]: each [ascii]
    character is one byte. *)
Definition byte_at (c : ascii) : Z := Z.of_nat (nat_of_ascii c).

Definition blen (s : string) : Z := Z.of_nat (String.length s).

(** Python slicing [s[a:b]] with integer bounds. *)
Definition slice_index (len i : Z) : Z :=
  if i <? 0 then Z.max 0 (i + len) else Z.min i len.

Definition py_slice (s : string) (a b : Z) : string :=
  let a' := slice_index (blen s) a in
  let b' := slice_index (blen s) b in
  if b' <=? a' then ""%string
  else String.substring (Z.to_nat a') (Z.to_nat (b' - a')) s.

(** [data[a:b]] where [a] and [b] may be numpy or float numbers. *)
Definition slice_num (s : string) (a b : pynum) : result string :=
  match kind a, kind b with
  | KFloat, _ | _, KFloat => Err TypeError
  | _, _ => Ok (py_slice s (val a) (val b))
  end.

(** Little-endian value of a string of bytes. *)
Fixpoint le_value (s : string) : Z :=
  match s with
  | String.EmptyString => 0
  | String.String c r => byte_at c + 256 * le_value r
  end.

(** [struct.unpack('<{n}I', s)]: [s] must be exactly [4 n] bytes long. *)
Fixpoint split_u32 (n : nat) (s : string) : list Z :=
  match n with
  | O => []
  | S n' => le_value (String.substring 0 4 s) :: split_u32 n' (String.substring 4 (String.length s - 4) s)
  end.

Definition unpack_u32s (n : Z) (s : string) : result (list Z) :=
  if blen s =? 4 * n then Ok (split_u32 (Z.to_nat n) s) else Err StructError.

(** [struct.unpack('<I', s)[0]] *)
Definition unpack_u32 (s : string) : result Z :=
  if blen s =? 4 then Ok (le_value s) else Err StructError.

(** Encoding of a little-endian u32, used to build test buffers. *)
Definition u32_bytes (z : Z) : string :=
  String.String (ascii_of_nat (Z.to_nat (z mod 256)))
  (String.String (ascii_of_nat (Z.to_nat ((z / 256) mod 256)))
  (String.String (ascii_of_nat (Z.to_nat ((z / 65536) mod 256)))
  (String.String (ascii_of_nat (Z.to_nat ((z / 16777216) mod 256))) String.EmptyString))).

Example unpack_u32_3 : unpack_u32 (u32_bytes 3) = Ok 3.
Proof. reflexivity. Qed.

(* ------------------------------------------------------------------------- *)
(** ** GGML_QUANT_SIZES *)

Definition QK_K : Z := 256.

(** [GGML_QUANT_SIZES.get(dtype)]: (block size, type size), keyed by the
    numbering of [gguf.GGMLQuantizationType] (F32 = 0, F16 = 1, Q4_0 = 2,
    Q4_1 = 3, Q5_0 = 6, Q5_1 = 7, Q8_0 = 8, Q8_1 = 9, Q2_K = 10 ... Q8_K = 15). *)
Definition GGML_QUANT_SIZES (dtype : Z) : option (Z * Z) :=
  match dtype with
  | 0 => Some (1, 4)
  | 1 => Some (1, 2)
  | 2 => Some (32, 2 + 16)
  | 3 => Some (32, 2 + 2 + 16)
  | 6 => Some (32, 2 + 4 + 16)
  | 7 => Some (32, 2 + 2 + 4 + 16)
  | 8 => Some (32, 2 + 32)
  | 9 => Some (32, 4 + 4 + 32)
  | 10 => Some (256, 2 + 2 + QK_K / 16 + QK_K / 4)
  | 11 => Some (256, 2 + QK_K / 4 + QK_K / 8 + 12)
  | 12 => Some (256, 2 + 2 + QK_K / 2 + 12)
  | 13 => Some (256, 2 + 2 + QK_K / 2 + QK_K / 8 + 12)
  | 14 => Some (256, 2 + QK_K / 2 + QK_K / 4 + QK_K / 16)
  | 15 => Some (256, 4 + QK_K + QK_K / 8)
  | _ => None
  end.

(* ------------------------------------------------------------------------- *)
(** ** Hyperparameters, Vocab *)

Record Hyperparameters := mk_hp {
  n_vocab : Z; n_embd : Z; n_mult : Z; n_head : Z; n_layer : Z; n_rot : Z;
  ftype : Z; n_ff : Z }.

(** [Hyperparameters.load]: seven u32 values; returns the hyperparameters
    (with [n_ff = 0]) and the number of bytes read. *)
Definition hp_load (data : string) (offset : Z) : result (Hyperparameters * Z) :=
  let* vs := unpack_u32s 7 (py_slice data offset (offset + 4 * 7)) in
  match vs with
  | [a; b; c; d; e; f; g] => Ok (mk_hp a b c d e f g 0, 4 * 7)
  | _ => Err StructError
  end.

(** A vocabulary item: the token bytes and the score.  The score is kept as
    the 32-bit pattern read by [struct.unpack('<f', ...)]: the script only
    carries it through. *)
Record vocab_item := mk_vitem { vbytes : string; vscore : Z }.

Fixpoint vocab_items (data : string) (offset : Z) (n : nat) : result (list vocab_item * Z) :=
  match n with
  | O => Ok ([], offset)
  | S n' =>
      let* itemlen := unpack_u32 (py_slice data offset (offset + 4)) in
      let* _u := py_assert (itemlen <? 4096) "Absurd vocab item length" in
      let offset := offset + 4 in
      let vocab := py_slice data offset (offset + itemlen) in
      let offset := offset + itemlen in
      let* score := unpack_u32 (py_slice data offset (offset + 4)) in
      let offset := offset + 4 in
      let* rest := vocab_items data offset n' in
      Ok (mk_vitem vocab score :: fst rest, snd rest)
  end.

(** [Vocab.load]: the items and the number of bytes read. *)
Definition vocab_load (data : string) (offset n_vocab : Z) : result (list vocab_item * Z) :=
  let* r := vocab_items data offset (Z.to_nat n_vocab) in
  Ok (fst r, snd r - offset).

(* ------------------------------------------------------------------------- *)
(** ** Tensor.load *)

Record Tensor := mk_tensor {
  name : string; dims : list Z; dtype : Z; start_offset : pynum; len_bytes : pynum }.

(** [Tensor.load(data, offset)]: the tensor and [offset - orig_offset]. *)
Definition tensor_load (data : string) (offset : pynum) : result (Tensor * pynum) :=
  let orig_offset := offset in
  let* hdr := slice_num data offset (padd offset (pint 12)) in
  let* h := unpack_u32s 3 hdr in
  match h with
  | [n_dims; name_len; dtype] =>
    let* _u := py_assert ((n_dims >=? 0) && (n_dims <=? 4)) "Invalid tensor dimensions" in
    let* _u := py_assert (name_len <? 4096) "Absurd tensor name length" in
    let quant := GGML_QUANT_SIZES dtype in
    match quant with
    | None => Err (AssertionError "Unknown tensor type")
    | Some (blksize, tysize) =>
      let offset := padd offset (pint 12) in
      let* ds := slice_num data offset (padd offset (pint (4 * n_dims))) in
      let* dims := unpack_u32s n_dims ds in
      let offset := padd offset (pint (4 * n_dims)) in
      let* name := slice_num data offset (padd offset (pint name_len)) in
      let offset := padd offset (pint name_len) in
      let* aligned := pland (padd offset (pint 31)) (pint (Z.lnot 31)) in
      let pad := psub aligned offset in
      let offset := padd offset pad in
      let n_elems := np_prod dims in
      let n_bytes := pfloordiv (pmul n_elems (pint tysize)) (pint blksize) in
      let t := mk_tensor name dims dtype offset n_bytes in
      let offset := padd offset n_bytes in
      Ok (t, psub offset orig_offset)
    end
  | _ => Err StructError
  end.

(* ------------------------------------------------------------------------- *)
(** ** GGMLV3Model *)

Record GGMLV3Model := mk_model {
  hyperparameters : Hyperparameters;
  vocab : list vocab_item;
  tensor_map : gmap string nat;
  tensors : list Tensor }.

Definition validate_header (data : string) (offset : Z) : result Z :=
  if negb (String.eqb (py_slice data offset (offset + 4)) "tjgg") then
    Err (ValueError "Only GGJTv3 supported")
  else
    let* version := unpack_u32 (py_slice data (offset + 4) (offset + 8)) in
    if negb (version =? 3) then Err (ValueError "Only GGJTv3 supported") else Ok 8.

(** The [while offset < len(data)] loop of [GGMLV3Model.load], run for at
    most [fuel] iterations. *)
Fixpoint scan (fuel : nat) (data : string) (offset : pynum) (tensors : list Tensor)
    (tensor_map : gmap string nat) : result (pynum * list Tensor * gmap string nat) :=
  match fuel with
  | O => Err OutOfFuel
  | S fuel' =>
    if val offset <? blen data then
      let* r := tensor_load data offset in
      let offset := padd offset (snd r) in
      let tensor_map := <[name (fst r) := length tensors]> tensor_map in
      scan fuel' data offset (tensors ++ [fst r]) tensor_map
    else Ok (offset, tensors, tensor_map)
  end.

Definition ff_tensor_name : string := "layers.0.feed_forward.w1.weight".

(** [Hyperparameters.set_n_ff] *)
Definition set_n_ff (hp : Hyperparameters) (tensors : list Tensor)
    (tensor_map : gmap string nat) : result Hyperparameters :=
  match tensor_map !! ff_tensor_name with
  | None => Err (AssertionError "Missing layer 0 FF tensor")
  | Some idx =>
    match tensors !! idx with
    | None => Err IndexError
    | Some ff_tensor =>
      match dims ff_tensor !! 1%nat with
      | None => Err IndexError
      | Some d => Ok (mk_hp (n_vocab hp) (n_embd hp) (n_mult hp) (n_head hp)
                         (n_layer hp) (n_rot hp) (ftype hp) d)
      end
    end
  end.

(** [GGMLV3Model.load(data, offset)]: the model and the final offset. *)
Definition model_load (fuel : nat) (data : string) (offset : Z) : result (GGMLV3Model * pynum) :=
  let* h := validate_header data offset in
  let offset := offset + h in
  let* hr := hp_load data offset in
  let hp := fst hr in
  let offset := offset + snd hr in
  let* vr := vocab_load data offset (n_vocab hp) in
  let offset := offset + snd vr in
  let* sr := scan fuel data (pint offset) [] ∅ in
  let '(offset, tensors, tensor_map) := sr in
  let* hp := set_n_ff hp tensors tensor_map in
  Ok (mk_model hp (fst vr) tensor_map tensors, offset).

(** [model.load(data, 0)] as called by [main]. *)
Definition ggml_decode (fuel : nat) (data : string) : result (GGMLV3Model * pynum) :=
  model_load fuel data 0.

(* ------------------------------------------------------------------------- *)
(** ** GGMLToGGUF.__init__: the key/value head count *)

(** [float(hp.n_head) / float(x) == gqa] with [gqa = float(cfg.gqa)].  For
    [0 <= n_head < 2^32] and [1 <= x < 256] this holds exactly when
    [n_head = cfg.gqa * x]: the correctly rounded quotient lies within
    [2^-21] of [n_head / x], which differs from any integer by [0] or by at
    least [1/255]; and [float(cfg.gqa)] can only equal a value below [2^32]
    when [cfg.gqa] itself is that (exactly representable) integer. *)
Definition gqa_match (n_head x gqa : Z) : bool := n_head =? gqa * x.

(** [for x in range(1, 256): if ...: n_kv_head = x], from [n_kv_head = None]. *)
Definition gqa_search (n_head gqa : Z) : option Z :=
  fold_left (fun n_kv_head x => if gqa_match n_head x gqa then Some x else n_kv_head)
    (map Z.of_nat (seq 1 255)) None.

(** [float(z)] on a Python int raises [OverflowError] exactly when [z],
    rounded to nearest with ties to even, has magnitude [2^1024] or more:
    when [|z| >= 2^1024 - 2^970], the midpoint between the largest double
    [2^1024 - 2^971] and [2^1024]. *)
Definition int_to_float_overflows (z : Z) : bool := 2 ^ 1024 - 2 ^ 970 <=? Z.abs z.

(** The [n_kv_head] computed by [GGMLToGGUF.__init__]; [params_n_head_kv]
    is [params_override.n_head_kv] when an override is given.  [--gqa] is
    read with [type=int], so [float(cfg.gqa)] can overflow. *)
Definition resolve_n_kv_head (params_n_head_kv : option Z) (cfg_gqa n_head : Z) : result Z :=
  match params_n_head_kv with
  | Some n_kv_head => Ok n_kv_head
  | None =>
    if cfg_gqa =? 1 then Ok n_head
    else if int_to_float_overflows cfg_gqa then Err OverflowError
    else match gqa_search n_head cfg_gqa with
         | None => Err (AssertionError "Couldn't determine n_kv_head from GQA param")
         | Some n_kv_head => Ok n_kv_head
         end
  end.

(* ------------------------------------------------------------------------- *)
(** ** GGMLToGGUF.add_vocab *)

(** The token records handed to the writer: [add_token_list],
    [add_token_scores] and, when it is called, [add_token_types]. *)
Record vocab_records := mk_vocab_records {
  out_tokens : list string; out_scores : list Z; out_toktypes : option (list Z) }.

Definition hex_digit_upper (d : Z) : ascii :=
  if d <? 10 then ascii_of_nat (Z.to_nat (48 + d)) else ascii_of_nat (Z.to_nat (55 + d)).

Fixpoint hex_upper_aux (fuel : nat) (n : Z) (acc : string) : string :=
  match fuel with
  | O => acc
  | S fuel' =>
    let acc := String.String (hex_digit_upper (n mod 16)) acc in
    if n <? 16 then acc else hex_upper_aux fuel' (n / 16) acc
  end.

(** [hex(n)[2:].upper()] for [n >= 0]: the digits without leading zeros. *)
Definition hex_upper (n : Z) : string := hex_upper_aux (S (Z.to_nat n)) n ""%string.

(** [vbytes.replace(b' ', b'\xe2\x96\x81')] *)
Fixpoint replace_space (s : string) : string :=
  match s with
  | String.EmptyString => String.EmptyString
  | String.String c r =>
    if Ascii.eqb c " "%char
    then String.String (ascii_of_nat 226) (String.String (ascii_of_nat 150)
           (String.String (ascii_of_nat 129) (replace_space r)))
    else String.String c (replace_space r)
  end.

(** One iteration of the heuristic loop: the token text and its type
    (1 normal, 3 control, 6 byte). *)
Definition heuristic_token (tokid : Z) (vbytes : string) : string * Z :=
  if (String.length vbytes =? 0)%nat then (vbytes, 3)
  else if (tokid >=? 3) && (tokid <=? 258) && (String.length vbytes =? 1)%nat then
    let hv := hex_upper (match vbytes with String.String c _ => byte_at c | _ => 0 end) in
    ("<0x" +:+ hv +:+ ">", 6)
  else (replace_space vbytes, 1).

Fixpoint heuristic_loop (tokid : Z) (items : list vocab_item) : list string * list Z * list Z :=
  match items with
  | [] => ([], [], [])
  | it :: rest =>
    let '(tok, ty) := heuristic_token tokid (vbytes it) in
    let '(toks, scores, tts) := heuristic_loop (tokid + 1) rest in
    (tok :: toks, vscore it :: scores, ty :: tts)
  end.

(** [add_vocab] without a vocabulary override. *)
Definition add_vocab_heuristic (items : list vocab_item) : vocab_records :=
  let '(tokens, scores, toktypes) := heuristic_loop 0 items in
  mk_vocab_records tokens scores (Some toktypes).

(** An item of [vo.all_tokens()]: [(token, score)] or [(token, score, type)]. *)
Inductive override_item :=
| OvPair (tok : string) (score : Z)
| OvTriple (tok : string) (score : Z) (ty : Z).

Fixpoint override_loop (items : list override_item) : list string * list Z * list Z :=
  match items with
  | [] => ([], [], [])
  | OvTriple tok score ty :: rest =>
    let '(toks, scores, tts) := override_loop rest in (tok :: toks, score :: scores, ty :: tts)
  | OvPair tok score :: rest =>
    let '(toks, scores, tts) := override_loop rest in (tok :: toks, score :: scores, tts)
  end.

(** [add_vocab] with a vocabulary override. *)
Definition add_vocab_override (n_vocab : Z) (items : list override_item) : result vocab_records :=
  let '(tokens, scores, toktypes) := override_loop items in
  let* _u := py_assert (Z.of_nat (length tokens) =? n_vocab)
               "Override vocab has a different number of items than hyperparameters" in
  Ok (mk_vocab_records tokens scores
        (if (0 <? length toktypes)%nat then Some toktypes else None)).

(* ------------------------------------------------------------------------- *)
(** ** GGMLToGGUF.add_tensors *)

Definition is_cont (b : Z) : bool := (128 <=? b) && (b <=? 191).
Definition in_range (lo hi b : Z) : bool := (lo <=? b) && (b <=? hi).

(** The bytes Python's strict UTF-8 decoder accepts (no overlong forms, no
    surrogates, nothing above U+10FFFF). *)
Fixpoint utf8_valid (bs : list Z) : bool :=
  match bs with
  | [] => true
  | b :: r =>
    if b <? 128 then utf8_valid r
    else if in_range 194 223 b then
      match r with c1 :: r' => is_cont c1 && utf8_valid r' | _ => false end
    else if in_range 224 239 b then
      match r with
      | c1 :: c2 :: r' =>
        (if b =? 224 then in_range 160 191 c1
         else if b =? 237 then in_range 128 159 c1 else is_cont c1)
        && is_cont c2 && utf8_valid r'
      | _ => false
      end
    else if in_range 240 244 b then
      match r with
      | c1 :: c2 :: c3 :: r' =>
        (if b =? 240 then in_range 144 191 c1
         else if b =? 244 then in_range 128 143 c1 else is_cont c1)
        && is_cont c2 && is_cont c3 && utf8_valid r'
      | _ => false
      end
    else false
  end.

Fixpoint string_bytes (s : string) : list Z :=
  match s with
  | String.EmptyString => []
  | String.String c r => byte_at c :: string_bytes r
  end.

(** [s.endswith(suf)] *)
Definition ends_with (suf s : string) : bool :=
  (String.length suf <=? String.length s)%nat &&
  String.eqb (String.substring (String.length s - String.length suf) (String.length suf) s) suf.

(** [s[:-k]] for [k <= len(s)] *)
Definition drop_last (k : nat) (s : string) : string :=
  String.substring 0 (String.length s - k) s.

(** A record handed to [gguf_writer.add_tensor]. *)
Record tensor_record := mk_tensor_record {
  rec_name : string; rec_shape : list Z; rec_dtype : Z; rec_payload : string }.

(** [tempdims]: the dimensions with the first two swapped when there are
    more than one. *)
Definition temp_dims (ds : list Z) : list Z :=
  if (1 <? length ds)%nat then
    match ds !! 1%nat, ds !! 0%nat with
    | Some temp, Some d0 => <[0%nat := temp]> (<[1%nat := d0]> ds)
    | _, _ => ds
    end
  else ds.

Section AddTensors.

(** The canonical name table [gguf.get_tensor_name_map(LLAMA, n_layer)],
    queried with [nm.get(name)]; the names are the UTF-8 text of the
    tensor names, kept here as their bytes. *)
Variable nm : string -> option string.
Variable data : string.

(** The loop of [add_tensors].  [suffix] is the value of the local
    [suffix] when the iteration starts: [None] while it is unbound. *)
Fixpoint add_tensors_loop (suffix : option string) (ts : list Tensor) : result (list tensor_record) :=
  match ts with
  | [] => Ok []
  | tensor :: rest =>
    if negb (utf8_valid (string_bytes (name tensor))) then Err UnicodeDecodeError else
    let name0 := name tensor in
    let '(name1, suffix) :=
      if ends_with ".weight" name0 then (drop_last 7 name0, Some ".weight"%string)
      else if ends_with ".bias" name0 then (drop_last 5 name0, Some ".bias"%string)
      else (name0, suffix) in
    match nm name1 with
    | None => Err (AssertionError "Bad name")
    | Some mapped_name =>
      match suffix with
      | None => Err UnboundLocalError
      | Some suf =>
        let mapped_name := mapped_name +:+ suf in
        let tempdims := temp_dims (dims tensor) in
        let* payload := slice_num data (start_offset tensor)
                          (padd (start_offset tensor) (len_bytes tensor)) in
        let* recs := add_tensors_loop suffix rest in
        Ok (mk_tensor_record mapped_name tempdims (dtype tensor) payload :: recs)
      end
    end
  end.

Definition add_tensors (ts : list Tensor) : result (list tensor_record) :=
  add_tensors_loop None ts.

End AddTensors.

(** Modelled from the spec: the canonical name table is supplied by the
    gguf package (not in src/); these are entries of its LLaMA table for
    the non-layer tensors (legacy base name to canonical base name). *)
Definition llama_name_map_globals (n : string) : option string :=
  if String.eqb n "tok_embeddings" then Some "token_embd"%string
  else if String.eqb n "norm" then Some "output_norm"%string
  else if String.eqb n "output" then Some "output"%string
  else None.

(* ------------------------------------------------------------------------- *)
(** ** GGMLToGGUF.add_params *)

(** [a // b] on Python ints. *)
Definition py_floordiv (a b : Z) : result Z :=
  if b =? 0 then Err ZeroDivisionError else Ok (a / b).

(** The calls [add_params] makes on the writer, in order; [F] is the type
    of the float values handed to it. *)
Inductive kv_call (F : Type) :=
| AddName (s : string)
| AddDescription (s : string)
| AddContextLength (n : Z)
| AddEmbeddingLength (n : Z)
| AddBlockCount (n : Z)
| AddFeedForwardLength (n : Z)
| AddRopeDimensionCount (n : Z)
| AddHeadCount (n : Z)
| AddHeadCountKv (n : Z)
| AddLayerNormRmsEps (eps : F).
Arguments AddName {F} s.
Arguments AddDescription {F} s.
Arguments AddContextLength {F} n.
Arguments AddEmbeddingLength {F} n.
Arguments AddBlockCount {F} n.
Arguments AddFeedForwardLength {F} n.
Arguments AddRopeDimensionCount {F} n.
Arguments AddHeadCount {F} n.
Arguments AddHeadCountKv {F} n.
Arguments AddLayerNormRmsEps {F} eps.

(** The fields of the command line configuration [cfg] the converter
    reads: [--name], [--desc], the file name of [--input], [--gqa],
    [--eps] (a string) and [--context-length]. *)
Record ggml_cfg := mk_cfg {
  cfg_name : option string; cfg_desc : option string; cfg_input_name : string;
  cfg_gqa : Z; cfg_eps : string; cfg_context_length : Z }.

(** The fields of [params_override] that [__init__] and [add_params] read. *)
Record params_override (F : Type) := mk_po {
  po_n_ctx : Z; po_n_embd : Z; po_n_layer : Z; po_n_ff : Z;
  po_n_head : Z; po_n_head_kv : Z; po_f_norm_eps : F }.
Arguments mk_po {F}.
Arguments po_n_ctx {F}.
Arguments po_n_embd {F}.
Arguments po_n_layer {F}.
Arguments po_n_ff {F}.
Arguments po_n_head {F}.
Arguments po_n_head_kv {F}.
Arguments po_f_norm_eps {F}.

Section AddParams.

Context {F : Type}.

(** [float(s)] on a string: the float it denotes, or [ValueError]. *)
Variable py_float : string -> result F.

Definition hp_mismatch : string := "Model hyperparams mismatch".

(** [GGMLToGGUF.add_params]: the writer calls, in order.  The file name
    [cfg.input.name] is a [str] (pathlib decodes file names with surrogate
    escapes), so the [except UnicodeDecodeError] branch is not taken and
    [add_name] is always called. *)
Definition add_params (cfg : ggml_cfg) (hp : Hyperparameters)
    (po : option (params_override F)) (n_kv_head : Z) : result (list (kv_call F)) :=
  let desc := match cfg_desc cfg with
              | Some d => d | None => "converted from legacy GGJTv3 format"%string end in
  let name := match cfg_name cfg with Some n => n | None => cfg_input_name cfg end in
  let named := [AddName name; AddDescription desc] in
  match po with
  | Some po =>
    let* _u := py_assert (po_n_embd po =? n_embd hp) hp_mismatch in
    let* _u := py_assert (po_n_layer po =? n_layer hp) hp_mismatch in
    let* _u := py_assert (po_n_head po =? n_head hp) hp_mismatch in
    let* rope := py_floordiv (po_n_embd po) (po_n_head po) in
    Ok (named ++ [AddContextLength (po_n_ctx po); AddEmbeddingLength (po_n_embd po);
                  AddBlockCount (po_n_layer po); AddFeedForwardLength (po_n_ff po);
                  AddRopeDimensionCount rope; AddHeadCount (po_n_head po);
                  AddHeadCountKv (po_n_head_kv po); AddLayerNormRmsEps (po_f_norm_eps po)])
  | None =>
    let* rope := py_floordiv (n_embd hp) (n_head hp) in
    let* eps := py_float (cfg_eps cfg) in
    Ok (named ++ [AddContextLength (cfg_context_length cfg); AddEmbeddingLength (n_embd hp);
                  AddBlockCount (n_layer hp); AddFeedForwardLength (n_ff hp);
                  AddRopeDimensionCount rope; AddHeadCount (n_head hp);
                  AddHeadCountKv n_kv_head; AddLayerNormRmsEps eps])
  end.

(** [GGMLToGGUF(model, data, cfg, params_override, ...)] followed by
    [add_params]: the key/value head count of [__init__], then the calls. *)
Definition converter_params (cfg : ggml_cfg) (hp : Hyperparameters)
    (po : option (params_override F)) : result (list (kv_call F)) :=
  let* n_kv_head := resolve_n_kv_head (option_map po_n_head_kv po) (cfg_gqa cfg) (n_head hp) in
  add_params cfg hp po n_kv_head.

End AddParams.

(* ------------------------------------------------------------------------- *)
(** ** Building GGJTv3 buffers *)

Fixpoint u32s_bytes (ds : list Z) : string :=
  match ds with
  | [] => ""%string
  | d :: r => (u32_bytes d +:+ u32s_bytes r)%string
  end.

(** A tensor directory entry, without its padding and payload. *)
Definition tensor_entry (nm : string) (dt : Z) (ds : list Z) : string :=
  (u32s_bytes [Z.of_nat (length ds); blen nm; dt] +:+ u32s_bytes ds +:+ nm)%string.

Fixpoint zero_bytes (n : nat) : string :=
  match n with
  | O => ""%string
  | S n' => String.String (ascii_of_nat 0) (zero_bytes n')
  end.

(** A vocabulary entry: its length, its bytes and its score. *)
Definition vocab_entry (it : vocab_item) : string :=
  (u32_bytes (blen (vbytes it)) +:+ vbytes it +:+ u32_bytes (vscore it))%string.

Fixpoint vocab_bytes (items : list vocab_item) : string :=
  match items with
  | [] => ""%string
  | it :: r => (vocab_entry it +:+ vocab_bytes r)%string
  end.

(** Magic, version 3 and the seven hyperparameters. *)
Definition ggjt_header (hp : list Z) : string :=
  ("tjgg" +:+ u32_bytes 3 +:+ u32s_bytes hp)%string.

(* ------------------------------------------------------------------------- *)
(** ** The tensor map, as the directory scan builds it *)

(** [tensor_map[tensor.name] = len(tensors)] for each entry in turn. *)
Fixpoint build_tensor_map (ts : list Tensor) (i : nat) (m : gmap string nat) : gmap string nat :=
  match ts with
  | [] => m
  | t :: r => build_tensor_map r (S i) (<[name t := i]> m)
  end.

Definition tensor_map_of (ts : list Tensor) : gmap string nat := build_tensor_map ts 0 ∅.

(** The last directory entry with a given name. *)
Definition last_named (n : string) (ts : list Tensor) : option Tensor :=
  last (filter (fun t => name t = n) ts).

(* ------------------------------------------------------------------------- *)
(** ** Sample buffers *)

Definition sample_hparams : list Z := [0; 4; 256; 1; 1; 4; 0].

(** One F32 feed-forward tensor of shape [4; 8]. *)
Definition ff_only_buffer : string :=
  (ggjt_header sample_hparams +:+ tensor_entry ff_tensor_name 0 [4; 8] +:+
   zero_bytes 9 +:+ zero_bytes 128)%string.

(** One Q4_0 feed-forward tensor of shape [3; 1]: 3 elements of a 32-element
    block, [3 * 18 / 32] is not exact. *)
Definition partial_block_buffer : string :=
  (ggjt_header sample_hparams +:+ tensor_entry ff_tensor_name 2 [3; 1] +:+
   zero_bytes 9 +:+ zero_bytes 1)%string.

(** Two feed-forward entries: shape [4; 8], then shape [5]. *)
Definition duplicate_ff_buffer : string :=
  (ggjt_header sample_hparams +:+ tensor_entry ff_tensor_name 0 [4; 8] +:+
   zero_bytes 9 +:+ zero_bytes 128 +:+
   tensor_entry ff_tensor_name 0 [5] +:+ zero_bytes 17 +:+ zero_bytes 20)%string.

(** One unnamed F32 tensor whose dimensions multiply to [2^64 - 7]: the
    [int64] product is [-7] and the byte length [-28]. *)
Definition wrapping_dims_buffer : string :=
  (ggjt_header sample_hparams +:+ tensor_entry "" 0 [2502845209; 2456769867; 3])%string.

(** The feed-forward tensor, then a tensor with no dimensions: its byte
    length [np.prod(()) * 4 // 1] is the float [4.0]. *)
Definition zero_dim_last_buffer : string :=
  (ggjt_header sample_hparams +:+ tensor_entry ff_tensor_name 0 [4; 8] +:+
   zero_bytes 9 +:+ zero_bytes 128 +:+ tensor_entry "s" 0 [] +:+ zero_bytes 19 +:+
   zero_bytes 4)%string.

(* ========================================================================= *)
(** * Properties *)

(* ------------------------------------------------------------------------- *)
(** ** The error monad *)

Lemma bind_Ok {A B} (m : result A) (k : A -> result B) (b : B) :
  bind m k = Ok b -> exists a, m = Ok a /\ k a = Ok b.
Proof. destruct m; simpl; [eauto | discriminate]. Qed.

Lemma bind_Err {A B} (m : result A) (k : A -> result B) (e : py_error) :
  m = Err e -> bind m k = Err e.
Proof. intros ->. reflexivity. Qed.

Ltac inv_bind H :=
  let a := fresh "a" in let Ha := fresh "Ha" in
  apply bind_Ok in H; destruct H as (a & Ha & H).

(* ------------------------------------------------------------------------- *)
(** ** Strings as lists of bytes *)

Local Abbreviation sl := String.list_ascii_of_string.

Lemma sl_length (s : string) : length (sl s) = String.length s.
Proof. induction s; simpl; congruence. Qed.

Lemma sl_append (a b : string) : sl (a +:+ b) = sl a ++ sl b.
Proof. induction a as [|c a IH]; simpl; [reflexivity | rewrite IH; reflexivity]. Qed.

Lemma sl_inj (a b : string) : sl a = sl b -> a = b.
Proof.
  intros H. rewrite <- (String.string_of_list_ascii_of_string a),
    <- (String.string_of_list_ascii_of_string b), H. reflexivity.
Qed.

Lemma substring_sl (n m : nat) (s : string) :
  sl (String.substring n m s) = take m (drop n (sl s)).
Proof.
  revert n m. induction s as [|c s IH]; intros n m.
  - destruct n, m; reflexivity.
  - destruct n as [|n], m as [|m]; simpl; try reflexivity.
    + rewrite IH. reflexivity.
    + apply IH.
    + apply IH.
Qed.

Lemma substring_zero (n : nat) (s : string) : String.substring n 0 s = ""%string.
Proof. apply sl_inj. rewrite substring_sl. reflexivity. Qed.

Lemma py_slice_inside (s : string) (a b : Z) :
  0 <= a <= b -> b <= blen s ->
  py_slice s a b = String.substring (Z.to_nat a) (Z.to_nat (b - a)) s.
Proof.
  intros Hab Hb. unfold py_slice, slice_index.
  destruct (a <? 0) eqn:Ha; [lia|]. destruct (b <? 0) eqn:Hb'; [lia|].
  rewrite !Z.min_l by lia.
  destruct (b <=? a) eqn:E.
  - apply sl_inj. rewrite substring_sl. replace (Z.to_nat (b - a)) with 0%nat by lia.
    reflexivity.
  - reflexivity.
Qed.

Lemma py_slice_length (s : string) (a b : Z) :
  0 <= a <= b -> blen (py_slice s a b) = Z.max 0 (Z.min b (blen s) - Z.min a (blen s)).
Proof.
  intros Hab. unfold py_slice, slice_index.
  destruct (a <? 0) eqn:Ha; [lia|]. destruct (b <? 0) eqn:Hb'; [lia|].
  destruct (Z.min b (blen s) <=? Z.min a (blen s)) eqn:E.
  - apply Z.leb_le in E. change (blen "") with 0. lia.
  - apply Z.leb_gt in E.
    unfold blen. rewrite <- sl_length, substring_sl, length_take, length_drop, sl_length.
    unfold blen in *. lia.
Qed.

(* ------------------------------------------------------------------------- *)
(** ** Numbers *)

Lemma wrap64_mod (z : Z) : wrap64 z mod 2 ^ 64 = z mod 2 ^ 64.
Proof.
  unfold wrap64. rewrite Zminus_mod, Zmod_mod, <- Zminus_mod.
  replace (z + 2 ^ 63 - 2 ^ 63) with z by lia. reflexivity.
Qed.

Lemma wrap64_mod32 (z : Z) : wrap64 z mod 32 = z mod 32.
Proof.
  assert (H : forall x, x mod 32 = (x mod 2 ^ 64) mod 32).
  { intros x. symmetry. apply Z.mod_mod_divide. exists (2 ^ 59). reflexivity. }
  rewrite (H (wrap64 z)), (H z), wrap64_mod. reflexivity.
Qed.

Lemma land_lnot31_mod32 (x : Z) : Z.land x (Z.lnot 31) mod 32 = 0.
Proof.
  rewrite <- Z.ldiff_land. change 31 with (Z.ones 5).
  rewrite Z.ldiff_ones_r by lia. rewrite Z.shiftl_mul_pow2 by lia.
  apply Z_mod_mult.
Qed.

(* ------------------------------------------------------------------------- *)
(** ** Header validation *)

(** The buffer starts with the magic [tjgg] followed by a little-endian
    u32 equal to 3. *)
Definition has_ggjt_v3_header (data : string) : Prop :=
  exists v rest, data = ("tjgg" +:+ v +:+ rest)%string /\
                 String.length v = 4%nat /\ le_value v = 3.

Lemma split_4_4 (data : string) :
  (8 <= String.length data)%nat ->
  data = (String.substring 0 4 data +:+ String.substring 4 4 data +:+
          String.substring 8 (String.length data - 8) data)%string.
Proof.
  intros Hl. apply sl_inj. rewrite !sl_append, !substring_sl.
  rewrite (take_ge (drop 8 _)) by (rewrite length_drop, sl_length; lia).
  rewrite <- (drop_drop _ 4 4).
  rewrite take_drop. rewrite drop_0, take_drop. reflexivity.
Qed.

Lemma validate_header_ok_iff (data : string) :
  (exists n, validate_header data 0 = Ok n) <-> has_ggjt_v3_header data.
Proof.
  split.
  - intros [n H]. unfold validate_header in H.
    destruct (String.eqb (py_slice data 0 (0 + 4)) "tjgg") eqn:M; simpl in H; [|discriminate].
    apply String.eqb_eq in M.
    destruct (unpack_u32 (py_slice data (0 + 4) (0 + 8))) as [ver|e] eqn:U;
      simpl in H; [|discriminate].
    destruct (ver =? 3) eqn:V; simpl in H; [|discriminate]. apply Z.eqb_eq in V. subst ver.
    unfold unpack_u32 in U. destruct (blen _ =? 4) eqn:L; [|discriminate].
    injection U as U. apply Z.eqb_eq in L. simpl in L, U.
    rewrite py_slice_length in L by lia.
    assert (Hlen : 8 <= blen data) by lia.
    rewrite py_slice_inside in U, M by lia. simpl in U, M.
    exists (String.substring 4 4 data), (String.substring 8 (String.length data - 8) data).
    split; [|split].
    + rewrite <- M at 1. apply split_4_4. unfold blen in Hlen. lia.
    + rewrite <- sl_length, substring_sl, length_take, length_drop, sl_length.
      unfold blen in Hlen. lia.
    + exact U.
  - intros (v & rest & -> & Hv & Hval).
    destruct v as [|c0 [|c1 [|c2 [|c3 [|c4 v]]]]]; simpl in Hv; try discriminate.
    assert (Hl : 8 <= blen ("tjgg" +:+ String.String c0 (String.String c1
                  (String.String c2 (String.String c3 String.EmptyString))) +:+ rest)%string).
    { unfold blen. simpl. lia. }
    exists 8. unfold validate_header.
    rewrite !py_slice_inside by (simpl; lia). simpl. rewrite !substring_zero.
    unfold unpack_u32. simpl in Hval |- *. rewrite Hval. reflexivity.
Qed.

(** C6: header validation succeeds exactly on a buffer whose first 4 bytes
    are the magic [tjgg] and whose next 4 bytes are the little-endian u32 3;
    on every other buffer decoding fails. *)
Theorem header_validation_exact (data : string) :
  ((exists n, validate_header data 0 = Ok n) <-> has_ggjt_v3_header data) /\
  (~ has_ggjt_v3_header data -> forall fuel, exists e, ggml_decode fuel data = Err e).
Proof.
  split; [apply validate_header_ok_iff|].
  intros Hn fuel. unfold ggml_decode, model_load.
  destruct (validate_header data 0) as [n|e] eqn:V.
  - exfalso. apply Hn, validate_header_ok_iff. eauto.
  - exists e. reflexivity.
Qed.

Lemma header_validation_exact_witness :
  ~ has_ggjt_v3_header ("tjgg" +:+ u32_bytes 2)%string /\
  exists e, ggml_decode 1 ("tjgg" +:+ u32_bytes 2)%string = Err e.
Proof.
  assert (Hn : ~ has_ggjt_v3_header ("tjgg" +:+ u32_bytes 2)%string).
  { intros Hh. apply validate_header_ok_iff in Hh. destruct Hh as [n Hn].
    vm_compute in Hn. discriminate. }
  split; [exact Hn|].
  exact (proj2 (header_validation_exact _) Hn 1%nat).
Defined.

(* ------------------------------------------------------------------------- *)
(** ** Tensor.load and the directory scan *)

(** The padding step: [pad = ((offset + 31) & ~31) - offset; offset += pad]. *)
Lemma align_step_mod32 (o al : pynum) :
  pland (padd o (pint 31)) (pint (Z.lnot 31)) = Ok al ->
  kind (padd o (psub al o)) <> KFloat /\ val (padd o (psub al o)) mod 32 = 0.
Proof.
  destruct o as [k x]. destruct k; simpl; intros H; try discriminate;
    injection H as <-; simpl; split; try discriminate.
  - replace (x + (Z.land (x + 31) (Z.lnot 31) - x)) with (Z.land (x + 31) (Z.lnot 31)) by lia.
    apply land_lnot31_mod32.
  - rewrite wrap64_mod32, Zplus_mod, wrap64_mod32, <- Zplus_mod.
    replace (x + (wrap64 (Z.land (wrap64 (x + 31)) (Z.lnot 31)) - x))
      with (wrap64 (Z.land (wrap64 (x + 31)) (Z.lnot 31))) by lia.
    rewrite wrap64_mod32. apply land_lnot31_mod32.
Qed.

Lemma split_u32_length (n : nat) (s : string) : length (split_u32 n s) = n.
Proof. revert s. induction n; intros s; simpl; [reflexivity | rewrite IHn; reflexivity]. Qed.

(** What a successful [Tensor.load] records. *)
Lemma tensor_load_Ok (data : string) (o : pynum) (t : Tensor) (d : pynum) :
  tensor_load data o = Ok (t, d) ->
  exists blksize tysize o3 al,
    GGML_QUANT_SIZES (dtype t) = Some (blksize, tysize) /\
    (length (dims t) <= 4)%nat /\
    pland (padd o3 (pint 31)) (pint (Z.lnot 31)) = Ok al /\
    start_offset t = padd o3 (psub al o3) /\
    len_bytes t = pfloordiv (pmul (np_prod (dims t)) (pint tysize)) (pint blksize) /\
    d = psub (padd (start_offset t) (len_bytes t)) o.
Proof.
  unfold tensor_load. intros H.
  inv_bind H. inv_bind H.
  destruct a0 as [|n_dims [|name_len [|dt [|]]]]; try discriminate.
  inv_bind H. inv_bind H.
  destruct (GGML_QUANT_SIZES dt) as [[blk ty]|] eqn:Q; [|discriminate].
  inv_bind H. inv_bind H. inv_bind H. inv_bind H.
  injection H as <- <-. simpl.
  exists blk, ty, (padd (padd (padd o (pint 12)) (pint (4 * n_dims))) (pint name_len)), a5.
  unfold py_assert in Ha1. destruct (_ && _) eqn:Hn; [|discriminate].
  apply andb_prop in Hn as [_ Hn]. apply Z.leb_le in Hn.
  unfold unpack_u32s in Ha4. destruct (_ =? _) eqn:L in Ha4; [|discriminate].
  injection Ha4 as <-.
  repeat split; auto. rewrite split_u32_length. lia.
Qed.

Lemma build_tensor_map_app (ts : list Tensor) (t : Tensor) (i : nat) (m : gmap string nat) :
  build_tensor_map (ts ++ [t]) i m = <[name t := (i + length ts)%nat]> (build_tensor_map ts i m).
Proof.
  revert i m. induction ts as [|t' ts IH]; intros i m; simpl.
  - rewrite Nat.add_0_r. reflexivity.
  - rewrite IH, Nat.add_succ_r. reflexivity.
Qed.

(** Every entry the scan appends comes from a successful [Tensor.load], and
    the scan keeps [tensor_map] equal to [tensor_map_of tensors]. *)
Lemma scan_Ok (fuel : nat) (data : string) (o : pynum) (ts : list Tensor)
    (tm : gmap string nat) (o' : pynum) (ts' : list Tensor) (tm' : gmap string nat) :
  scan fuel data o ts tm = Ok (o', ts', tm') ->
  (exists new, ts' = ts ++ new /\
     Forall (fun t => exists o1 d, tensor_load data o1 = Ok (t, d)) new) /\
  (tm = tensor_map_of ts -> tm' = tensor_map_of ts').
Proof.
  revert o ts tm. induction fuel as [|fuel IH]; intros o ts tm H; simpl in H; [discriminate|].
  destruct (val o <? blen data).
  - inv_bind H. destruct a as [t d].
    destruct (IH _ _ _ H) as [[new [-> Hnew]] Hm]. split.
    + exists (t :: new). rewrite <- app_assoc. split; [reflexivity|].
      constructor; eauto.
    + intros ->. apply Hm. unfold tensor_map_of. rewrite build_tensor_map_app. reflexivity.
  - injection H as <- <- <-. split; [exists []; rewrite app_nil_r; auto | auto].
Qed.

Lemma ggml_decode_Ok (fuel : nat) (data : string) (m : GGMLV3Model) (off : pynum) :
  ggml_decode fuel data = Ok (m, off) ->
  exists hp o, scan fuel data o [] ∅ = Ok (off, tensors m, tensor_map m) /\
               set_n_ff hp (tensors m) (tensor_map m) = Ok (hyperparameters m).
Proof.
  unfold ggml_decode, model_load. intros H.
  inv_bind H. inv_bind H. inv_bind H. inv_bind H.
  destruct a2 as [[o' ts] tm]. inv_bind H. injection H as <- <-. simpl.
  eauto.
Qed.

(** C5: after a successful decode, every tensor's payload start offset is a
    multiple of 32. *)
Theorem decoded_start_offsets_aligned (fuel : nat) (data : string) (m : GGMLV3Model) (off : pynum) :
  ggml_decode fuel data = Ok (m, off) ->
  Forall (fun t => val (start_offset t) mod 32 = 0) (tensors m).
Proof.
  intros H. destruct (ggml_decode_Ok _ _ _ _ H) as (hp & o & Hs & _).
  destruct (scan_Ok _ _ _ _ _ _ _ _ Hs) as [[new [Hts Hnew]] _].
  simpl in Hts. rewrite Hts. eapply Forall_impl; [exact Hnew|].
  intros t (o1 & d & Hl). destruct (tensor_load_Ok _ _ _ _ Hl) as (b & ty & o3 & al & _ & _ & Hal & Hst & _).
  rewrite Hst. apply (align_step_mod32 _ _ Hal).
Qed.

Lemma decoded_start_offsets_aligned_witness :
  exists m off, ggml_decode 2 ff_only_buffer = Ok (m, off) /\
    Forall (fun t => val (start_offset t) mod 32 = 0) (tensors m).
Proof.
  destruct (ggml_decode 2 ff_only_buffer) as [[m off]|e] eqn:E.
  - exists m, off. split; [reflexivity|].
    exact (decoded_start_offsets_aligned _ _ _ _ E).
  - vm_compute in E. discriminate.
Defined.

(* ------------------------------------------------------------------------- *)
(** ** Encoded entries *)

Lemma append_assoc (a b c : string) : ((a +:+ b) +:+ c = a +:+ (b +:+ c))%string.
Proof. apply sl_inj. rewrite !sl_append. symmetry. apply app_assoc. Qed.

Lemma blen_append (a b : string) : blen (a +:+ b) = blen a + blen b.
Proof. unfold blen. rewrite <- !sl_length, sl_append, length_app. lia. Qed.

Lemma le_value_u32_bytes (d : Z) : 0 <= d < 2 ^ 32 -> le_value (u32_bytes d) = d.
Proof.
  intros Hd. unfold u32_bytes. simpl. unfold byte_at.
  rewrite !nat_ascii_embedding by (apply Nat2Z.inj_lt; rewrite Z2Nat.id by
    (apply Z.mod_pos_bound; lia); change (Z.of_nat 256) with 256;
    apply Z.mod_pos_bound; lia).
  rewrite !Z2Nat.id by (apply Z.mod_pos_bound; lia).
  change 65536 with (256 * 256). change 16777216 with (256 * 256 * 256).
  rewrite <- !Z.div_div by lia.
  pose proof (Z.div_mod d 256 ltac:(lia)) as E0.
  pose proof (Z.div_mod (d / 256) 256 ltac:(lia)) as E1.
  pose proof (Z.div_mod (d / 256 / 256) 256 ltac:(lia)) as E2.
  pose proof (Z.div_mod (d / 256 / 256 / 256) 256 ltac:(lia)) as E3.
  pose proof (Z.mod_pos_bound d 256 ltac:(lia)).
  pose proof (Z.mod_pos_bound (d / 256) 256 ltac:(lia)).
  pose proof (Z.mod_pos_bound (d / 256 / 256) 256 ltac:(lia)).
  pose proof (Z.mod_pos_bound (d / 256 / 256 / 256) 256 ltac:(lia)).
  lia.
Qed.

Lemma u32_bytes_length (d : Z) : String.length (u32_bytes d) = 4%nat.
Proof. reflexivity. Qed.

Lemma substring_prefix (a b : string) :
  String.substring 0 (String.length a) (a +:+ b) = a.
Proof.
  apply sl_inj. rewrite substring_sl, drop_0, sl_append, <- sl_length.
  apply take_app_length.
Qed.

Lemma substring_suffix (a b : string) :
  String.substring (String.length a) (String.length (a +:+ b) - String.length a) (a +:+ b) = b.
Proof.
  apply sl_inj. rewrite substring_sl, sl_append, <- !sl_length, sl_append, drop_app_length.
  rewrite take_ge; [reflexivity|]. rewrite length_app. lia.
Qed.

Lemma u32s_bytes_length (ds : list Z) : String.length (u32s_bytes ds) = (4 * length ds)%nat.
Proof.
  induction ds as [|d ds IH]; [reflexivity|].
  simpl u32s_bytes. rewrite <- sl_length, sl_append, length_app, !sl_length, IH.
  simpl. lia.
Qed.

Lemma split_u32_u32s (ds : list Z) :
  Forall (fun d => 0 <= d < 2 ^ 32) ds ->
  split_u32 (length ds) (u32s_bytes ds) = ds.
Proof.
  induction 1 as [|d ds Hd _ IH]; [reflexivity|].
  cbn [length u32s_bytes split_u32].
  rewrite <- (u32_bytes_length d).
  rewrite substring_prefix, substring_suffix, le_value_u32_bytes by exact Hd.
  rewrite IH. reflexivity.
Qed.

Lemma py_slice_mid (q x r : string) :
  py_slice (q +:+ x +:+ r) (blen q) (blen q + blen x) = x.
Proof.
  rewrite py_slice_inside by (rewrite ?blen_append; unfold blen; lia).
  apply sl_inj. rewrite substring_sl, !sl_append.
  replace (Z.to_nat (blen q + blen x - blen q)) with (length (sl x))
    by (unfold blen; rewrite sl_length; lia).
  replace (Z.to_nat (blen q)) with (length (sl q)) by (unfold blen; rewrite sl_length; lia).
  rewrite drop_app_length. apply take_app_length.
Qed.

Lemma quant_dtype_range (dt : Z) (q : Z * Z) :
  GGML_QUANT_SIZES dt = Some q -> 0 <= dt < 2 ^ 32.
Proof.
  unfold GGML_QUANT_SIZES. intros H.
  destruct dt as [|p|p]; [lia| |discriminate].
  repeat (destruct p as [p|p|]; try discriminate; try lia).
Qed.

Arguments py_slice : simpl never.
Arguments unpack_u32s : simpl never.
Arguments GGML_QUANT_SIZES : simpl never.

Lemma tensor_entry_accepted (p nm : string) (dt : Z) (ds : list Z) (rest : string) (blk ty : Z) :
  GGML_QUANT_SIZES dt = Some (blk, ty) -> (length ds <= 4)%nat ->
  Forall (fun d => 0 <= d < 2 ^ 32) ds -> blen nm < 4096 ->
  exists t d, tensor_load (p +:+ tensor_entry nm dt ds +:+ rest) (pint (blen p)) = Ok (t, d) /\
              name t = nm /\ dims t = ds /\ dtype t = dt.
Proof.
  intros Hq Hn Hds Hnm. pose proof (quant_dtype_range _ _ Hq) as Hdt.
  set (H := u32s_bytes [Z.of_nat (length ds); blen nm; dt]).
  set (D := u32s_bytes ds).
  assert (HH : blen H = 12) by (unfold blen, H; rewrite u32s_bytes_length; reflexivity).
  assert (HD : blen D = 4 * Z.of_nat (length ds))
    by (unfold blen, D; rewrite u32s_bytes_length; lia).
  assert (B1 : (p +:+ tensor_entry nm dt ds +:+ rest = p +:+ H +:+ (D +:+ nm +:+ rest))%string)
    by (unfold tensor_entry; rewrite !append_assoc; reflexivity).
  assert (B2 : (p +:+ tensor_entry nm dt ds +:+ rest = (p +:+ H) +:+ D +:+ (nm +:+ rest))%string)
    by (unfold tensor_entry; rewrite !append_assoc; reflexivity).
  assert (B3 : (p +:+ tensor_entry nm dt ds +:+ rest = (p +:+ H +:+ D) +:+ nm +:+ rest)%string)
    by (unfold tensor_entry; rewrite !append_assoc; reflexivity).
  set (BUF := (p +:+ tensor_entry nm dt ds +:+ rest)%string).
  assert (S1 : py_slice BUF (blen p) (blen p + 12) = H)
    by (unfold BUF; rewrite B1, <- HH; apply py_slice_mid).
  assert (S2 : py_slice BUF (blen p + 12) (blen p + 12 + 4 * Z.of_nat (length ds)) = D).
  { unfold BUF. rewrite B2, <- HD, <- HH, <- blen_append. apply py_slice_mid. }
  assert (S3 : py_slice BUF (blen p + 12 + 4 * Z.of_nat (length ds))
                 (blen p + 12 + 4 * Z.of_nat (length ds) + blen nm) = nm).
  { unfold BUF. rewrite B3.
    replace (blen p + 12 + 4 * Z.of_nat (length ds)) with (blen (p +:+ H +:+ D))
      by (rewrite !blen_append; lia).
    apply py_slice_mid. }
  assert (U1 : unpack_u32s 3 H = Ok [Z.of_nat (length ds); blen nm; dt]).
  { unfold unpack_u32s. rewrite HH. change (4 * 3) with 12. rewrite Z.eqb_refl.
    change (Z.to_nat 3) with (length [Z.of_nat (length ds); blen nm; dt]).
    unfold H. rewrite split_u32_u32s; [reflexivity|].
    repeat constructor; unfold blen in *; lia. }
  assert (U2 : unpack_u32s (Z.of_nat (length ds)) D = Ok ds).
  { unfold unpack_u32s. rewrite HD, Z.eqb_refl, Nat2Z.id.
    f_equal. apply split_u32_u32s, Hds. }
  assert (A1 : (Z.of_nat (length ds) >=? 0) && (Z.of_nat (length ds) <=? 4) = true).
  { apply andb_true_intro. split; [apply Z.geb_le | apply Z.leb_le]; lia. }
  assert (A2 : (blen nm <? 4096) = true) by (apply Z.ltb_lt; exact Hnm).
  unfold tensor_load. simpl.
  rewrite S1, U1. simpl. rewrite A1, A2. simpl. rewrite Hq. simpl.
  rewrite S2, U2. simpl. rewrite S3.
  eexists _, _. split; [reflexivity|]. simpl. auto.
Qed.

(** C1 (amended): a decoded tensor entry records the byte length
    [(np.prod(dims) * type_size) // block_size], a floor division in numpy
    [int64] arithmetic; no exactness check is made, so every entry whose
    dimension count, name length and type are valid is accepted, whether or
    not the division leaves a remainder. *)
Theorem tensor_byte_length_floor :
  (forall (data : string) (o : pynum) (t : Tensor) (d : pynum),
     tensor_load data o = Ok (t, d) ->
     exists blksize tysize, GGML_QUANT_SIZES (dtype t) = Some (blksize, tysize) /\
       len_bytes t = pfloordiv (pmul (np_prod (dims t)) (pint tysize)) (pint blksize)) /\
  (forall (p nm : string) (dt : Z) (ds : list Z) (rest : string) (blksize tysize : Z),
     GGML_QUANT_SIZES dt = Some (blksize, tysize) -> (length ds <= 4)%nat ->
     Forall (fun d => 0 <= d < 2 ^ 32) ds -> blen nm < 4096 ->
     exists t d, tensor_load (p +:+ tensor_entry nm dt ds +:+ rest) (pint (blen p)) = Ok (t, d) /\
       dims t = ds /\ dtype t = dt /\
       len_bytes t = pfloordiv (pmul (np_prod ds) (pint tysize)) (pint blksize)).
Proof.
  split.
  - intros data o t d H.
    destruct (tensor_load_Ok _ _ _ _ H) as (b & ty & _ & _ & Hq & _ & _ & _ & Hl & _).
    eauto.
  - intros p nm dt ds rest b ty Hq Hn Hds Hnm.
    destruct (tensor_entry_accepted p nm dt ds rest b ty Hq Hn Hds Hnm)
      as (t & d & Hl & _ & Hdims & Hdt).
    exists t, d. split; [exact Hl|]. split; [exact Hdims|]. split; [exact Hdt|].
    destruct (tensor_load_Ok _ _ _ _ Hl) as (b' & ty' & _ & _ & Hq' & _ & _ & _ & Hlen & _).
    rewrite Hdt, Hq in Hq'. injection Hq' as <- <-. rewrite Hlen, Hdims. reflexivity.
Qed.

Lemma tensor_byte_length_floor_witness :
  exists t d, tensor_load (ggjt_header sample_hparams +:+ tensor_entry ff_tensor_name 2 [3; 1] +:+ "")%string
                (pint (blen (ggjt_header sample_hparams))) = Ok (t, d) /\
    dims t = [3; 1] /\ dtype t = 2 /\
    len_bytes t = pfloordiv (pmul (np_prod [3; 1]) (pint 18)) (pint 32).
Proof.
  apply (proj2 tensor_byte_length_floor _ _ 2 [3; 1] _ 32 18).
  - reflexivity.
  - simpl. lia.
  - repeat constructor; lia.
  - vm_compute. reflexivity.
Defined.

(** C1 (counterexample): a buffer whose only tensor has 3 elements of Q4_0
    (32-element blocks of 18 bytes) decodes successfully, although
    [3 * 18 / 32] is not exact. *)
Lemma partial_block_decodes :
  exists m off t, ggml_decode 2 partial_block_buffer = Ok (m, off) /\ tensors m = [t] /\
    GGML_QUANT_SIZES (dtype t) = Some (32, 18) /\
    (fold_right Z.mul 1 (dims t) * 18) mod 32 <> 0.
Proof.
  destruct (ggml_decode 2 partial_block_buffer) as [[m off]|e] eqn:E; [|vm_compute in E; discriminate].
  vm_compute in E. injection E as <- <-.
  eexists _, _, _. split; [reflexivity|]. split; [reflexivity|].
  split; [reflexivity|]. simpl. discriminate.
Qed.

(* ------------------------------------------------------------------------- *)
(** ** Termination of the directory scan *)

(** From [int64] offset 36 the single entry of [wrapping_dims_buffer] is
    read again and again: its byte length [-28] brings the cursor back to
    where the entry starts. *)
Lemma wrapping_scan_stuck (fuel : nat) (ts : list Tensor) (tm : gmap string nat) :
  scan fuel wrapping_dims_buffer (PyNum KI64 36) ts tm = Err OutOfFuel.
Proof.
  revert ts tm. induction fuel as [|fuel IH]; intros ts tm; [reflexivity|].
  cbn [scan].
  replace (val (PyNum KI64 36) <? blen wrapping_dims_buffer) with true by (vm_compute; reflexivity).
  destruct (tensor_load wrapping_dims_buffer (PyNum KI64 36)) as [[t d]|e] eqn:E;
    [|vm_compute in E; discriminate].
  assert (Hd : d = PyNum KI64 0) by (vm_compute in E; injection E as _ <-; reflexivity).
  subst d. cbn [bind fst snd]. apply IH.
Qed.

(** C10 (code_bug): decoding [wrapping_dims_buffer], a 60-byte buffer,
    never finishes: whatever the number of iterations allowed, the
    directory scan has not ended. *)
Theorem wrapping_dims_decode_diverges (fuel : nat) :
  ggml_decode fuel wrapping_dims_buffer = Err OutOfFuel.
Proof.
  unfold ggml_decode, model_load.
  replace (validate_header wrapping_dims_buffer 0) with (Ok 8) by (vm_compute; reflexivity).
  cbn [bind].
  replace (hp_load wrapping_dims_buffer (0 + 8))
    with (Ok (mk_hp 0 4 256 1 1 4 0 0, 28)) by (vm_compute; reflexivity).
  cbn [bind fst snd n_vocab].
  replace (vocab_load wrapping_dims_buffer (0 + 8 + 28) 0) with (Ok ([] : list vocab_item, 0))
    by (vm_compute; reflexivity).
  cbn [bind fst snd].
  destruct fuel as [|fuel]; [reflexivity|].
  cbn [scan].
  replace (val (pint (0 + 8 + 28 + 0)) <? blen wrapping_dims_buffer) with true
    by (vm_compute; reflexivity).
  destruct (tensor_load wrapping_dims_buffer (pint (0 + 8 + 28 + 0))) as [[t d]|e] eqn:E;
    [|vm_compute in E; discriminate].
  assert (Hd : d = PyNum KI64 0) by (vm_compute in E; injection E as _ <-; reflexivity).
  subst d. cbn [bind fst snd].
  replace (padd (pint (0 + 8 + 28 + 0)) (PyNum KI64 0)) with (PyNum KI64 36) by reflexivity.
  rewrite wrapping_scan_stuck. reflexivity.
Qed.

(* ------------------------------------------------------------------------- *)
(** ** The feed-forward dimension *)

(** [tensor_map] maps a name to the index of the last entry carrying it. *)
Lemma tensor_map_of_lookup (n : string) (ts : list Tensor) :
  (tensor_map_of ts !! n = None /\ last_named n ts = None) \/
  (exists i t, tensor_map_of ts !! n = Some i /\ ts !! i = Some t /\ last_named n ts = Some t).
Proof.
  induction ts as [|t ts IH] using rev_ind; [left; split; reflexivity|].
  unfold tensor_map_of in *. rewrite build_tensor_map_app. simpl.
  unfold last_named in *. rewrite filter_app, last_app. simpl.
  destruct (decide (name t = n)) as [Hn|Hn].
  - rewrite filter_cons_True by exact Hn. simpl.
    right. exists (length ts), t. rewrite Hn, lookup_insert_eq.
    split; [reflexivity|]. split; [|reflexivity].
    apply list_lookup_middle. reflexivity.
  - rewrite filter_cons_False by exact Hn. simpl.
    rewrite lookup_insert_ne by exact Hn.
    destruct IH as [[H1 H2] | (i & t' & H1 & H2 & H3)].
    + left. auto.
    + right. exists i, t'. split; [exact H1|]. split; [|exact H3].
      rewrite lookup_app_l; [exact H2|]. eapply lookup_lt_Some; eauto.
Qed.

(** C9 (amended): after the directory scan, [set_n_ff] reads the last
    entry named [layers.0.feed_forward.w1.weight]: it fails with an
    assertion when there is none, with an [IndexError] when that last entry
    has fewer than 2 dimensions, and otherwise sets [n_ff] to its second
    dimension. *)
Theorem set_n_ff_uses_last_entry (fuel : nat) (data : string) (o o' : pynum)
    (ts : list Tensor) (tm : gmap string nat) (hp : Hyperparameters) :
  scan fuel data o [] ∅ = Ok (o', ts, tm) ->
  set_n_ff hp ts tm =
    match last_named ff_tensor_name ts with
    | None => Err (AssertionError "Missing layer 0 FF tensor")
    | Some t =>
      match dims t !! 1%nat with
      | None => Err IndexError
      | Some d => Ok (mk_hp (n_vocab hp) (n_embd hp) (n_mult hp) (n_head hp)
                         (n_layer hp) (n_rot hp) (ftype hp) d)
      end
    end.
Proof.
  intros H. destruct (scan_Ok _ _ _ _ _ _ _ _ H) as [_ Hm].
  rewrite (Hm eq_refl). unfold set_n_ff.
  destruct (tensor_map_of_lookup ff_tensor_name ts) as [[H1 H2] | (i & t & H1 & H2 & H3)].
  - rewrite H1, H2. reflexivity.
  - rewrite H1, H2, H3. reflexivity.
Qed.

Lemma set_n_ff_uses_last_entry_witness :
  exists o' ts tm, scan 10 duplicate_ff_buffer (pint 36) [] ∅ = Ok (o', ts, tm) /\
    set_n_ff (mk_hp 0 4 256 1 1 4 0 0) ts tm = Err IndexError.
Proof.
  destruct (scan 10 duplicate_ff_buffer (pint 36) [] ∅) as [[[o' ts] tm]|e] eqn:E;
    [|vm_compute in E; discriminate].
  exists o', ts, tm. split; [reflexivity|].
  rewrite (set_n_ff_uses_last_entry _ _ _ _ _ _ (mk_hp 0 4 256 1 1 4 0 0) E).
  vm_compute in E. injection E as _ <- _. reflexivity.
Defined.

(** C9 (counterexample): the directory of [duplicate_ff_buffer] (scanned
    from offset 36, after the header and an empty vocabulary) holds a
    [layers.0.feed_forward.w1.weight] entry with 2 dimensions, yet decoding
    fails with [IndexError]: the later entry of that name has one dimension. *)
Lemma duplicate_ff_entry_fails :
  exists o' ts tm t, scan 10 duplicate_ff_buffer (pint 36) [] ∅ = Ok (o', ts, tm) /\
    In t ts /\ name t = ff_tensor_name /\ dims t = [4; 8] /\
    ggml_decode 10 duplicate_ff_buffer = Err IndexError.
Proof.
  destruct (scan 10 duplicate_ff_buffer (pint 36) [] ∅) as [[[o' ts] tm]|e] eqn:E;
    [|vm_compute in E; discriminate].
  vm_compute in E. injection E as <- <- <-.
  eexists _, _, _, _. split; [reflexivity|]. split; [left; reflexivity|].
  split; [reflexivity|]. split; [reflexivity|]. vm_compute. reflexivity.
Qed.

(* ------------------------------------------------------------------------- *)
(** ** Byte tokens of the heuristic vocabulary *)

Lemma hex_upper_one_digit (n : Z) :
  0 <= n < 16 -> hex_upper n = String.String (hex_digit_upper n) EmptyString.
Proof.
  intros H. unfold hex_upper. cbn [hex_upper_aux].
  rewrite Z.mod_small by exact H.
  replace (n <? 16) with true by (symmetry; apply Z.ltb_lt; lia). reflexivity.
Qed.

(** C2: a one-byte token in the reserved id range whose byte is below 16
    is emitted as [<0x] followed by a single hexadecimal digit and [>]
    (five characters, as [hex()] gives no leading zero), typed as a byte
    token. *)
Lemma single_byte_token_unpadded (tokid : Z) (c : ascii) :
  3 <= tokid <= 258 -> byte_at c < 16 ->
  heuristic_token tokid (String.String c EmptyString) =
    ("<0x" +:+ String.String (hex_digit_upper (byte_at c)) EmptyString +:+ ">", 6) /\
  String.length (fst (heuristic_token tokid (String.String c EmptyString))) = 5%nat.
Proof.
  intros [H1 H2] H3.
  assert (E : heuristic_token tokid (String.String c EmptyString) =
    ("<0x" +:+ String.String (hex_digit_upper (byte_at c)) EmptyString +:+ ">", 6)).
  { unfold heuristic_token. cbn -[hex_upper byte_at].
    replace (tokid >=? 3) with true by (symmetry; apply Z.geb_le; lia).
    replace (tokid <=? 258) with true by (symmetry; apply Z.leb_le; lia).
    cbn -[hex_upper byte_at].
    rewrite hex_upper_one_digit by (unfold byte_at in *; lia). reflexivity. }
  split; [exact E|]. rewrite E. reflexivity.
Qed.

Lemma single_byte_token_unpadded_witness :
  heuristic_token 3 (String.String (ascii_of_nat 10) EmptyString) = ("<0xA>"%string, 6).
Proof.
  destruct (single_byte_token_unpadded 3 (ascii_of_nat 10) ltac:(lia)
              ltac:(vm_compute; reflexivity)) as [E _].
  rewrite E. reflexivity.
Defined.

(* ------------------------------------------------------------------------- *)
(** ** The GQA search *)

(** After the candidates [1..k] the search holds the last candidate that
    matches, or [None] when none does. *)
Lemma gqa_fold_last (n g : Z) (k : nat) :
  match fold_left (fun acc x => if gqa_match n x g then Some x else acc)
          (map Z.of_nat (seq 1 k)) None with
  | None => forall y, 1 <= y <= Z.of_nat k -> gqa_match n y g = false
  | Some x => 1 <= x <= Z.of_nat k /\ gqa_match n x g = true /\
              forall y, x < y <= Z.of_nat k -> gqa_match n y g = false
  end.
Proof.
  induction k as [|k IH].
  - intros y Hy. lia.
  - rewrite seq_S, map_app, fold_left_app. cbn [map fold_left].
    destruct (gqa_match n (Z.of_nat (1 + k)) g) eqn:Hm.
    + split; [lia|]. split; [exact Hm|]. intros y Hy. lia.
    + revert IH. destruct (fold_left _ _ None) as [x|]; intros IH.
      * destruct IH as (H1 & H2 & H3). split; [lia|]. split; [exact H2|].
        intros y Hy. destruct (Z.eq_dec y (Z.of_nat (1 + k))) as [->|Hne]; [exact Hm|].
        apply H3. lia.
      * intros y Hy. destruct (Z.eq_dec y (Z.of_nat (1 + k))) as [->|Hne]; [exact Hm|].
        apply IH. lia.
Qed.

Lemma gqa_match_unique (n g x y : Z) :
  0 < n -> gqa_match n x g = true -> gqa_match n y g = true -> x = y.
Proof.
  unfold gqa_match. intros Hn Hx Hy. apply Z.eqb_eq in Hx, Hy.
  apply Z.mul_reg_l with g; [intros ->; lia | lia].
Qed.

(** C3: without an override and with a GQA factor other than 1,
    [float(cfg.gqa)] fails with [OverflowError] when the factor is too large
    for a double.  Otherwise the resolved kv head count is the LARGEST [x]
    in [[1,256)] that matches, and resolution fails with the assertion
    exactly when no [x] matches.  For a positive head count at most one [x]
    matches. *)
Lemma gqa_resolution_last_match (g n : Z) :
  g <> 1 ->
  (2 ^ 1024 - 2 ^ 970 <= Z.abs g -> resolve_n_kv_head None g n = Err OverflowError) /\
  (Z.abs g < 2 ^ 1024 - 2 ^ 970 ->
   (forall x, resolve_n_kv_head None g n = Ok x <->
      1 <= x < 256 /\ gqa_match n x g = true /\
      forall y, x < y < 256 -> gqa_match n y g = false) /\
   (resolve_n_kv_head None g n = Err (AssertionError "Couldn't determine n_kv_head from GQA param") <->
      forall y, 1 <= y < 256 -> gqa_match n y g = false)) /\
  (0 < n -> forall x y, gqa_match n x g = true -> gqa_match n y g = true -> x = y).
Proof.
  intros Hg. unfold resolve_n_kv_head, int_to_float_overflows.
  replace (g =? 1) with false by (symmetry; apply Z.eqb_neq; exact Hg).
  split; [|split].
  - intros Ho. apply Z.leb_le in Ho. rewrite Ho. reflexivity.
  - intros Ho. apply Z.leb_gt in Ho. rewrite Ho.
    pose proof (gqa_fold_last n g 255) as H. change (Z.of_nat 255) with 255 in H.
    unfold gqa_search. revert H.
    destruct (fold_left _ _ None) as [x0|]; intros H; cbv beta iota.
    + destruct H as (H1 & H2 & H3). split.
      * intros x; split.
        -- intros Ex. injection Ex as <-. split; [lia|]. split; [exact H2|].
           intros y Hy. apply H3. lia.
        -- intros (Hx1 & Hx2 & Hx3). f_equal.
           destruct (Z.lt_total x0 x) as [Hlt|[Heq|Hgt]].
           ++ rewrite H3 in Hx2 by lia. discriminate.
           ++ exact Heq.
           ++ rewrite Hx3 in H2 by lia. discriminate.
      * split; [discriminate|]. intros Hno. rewrite Hno in H2 by lia. discriminate.
    + split.
      * intros x; split; [discriminate|]. intros (Hx1 & Hx2 & _).
        rewrite H in Hx2 by lia. discriminate.
      * split; [intros _ y Hy; apply H; lia | reflexivity].
  - intros Hn x y. apply gqa_match_unique. exact Hn.
Qed.

Lemma gqa_resolution_last_match_witness :
  resolve_n_kv_head None 8 64 = Ok 8 /\
  resolve_n_kv_head None 3 64 = Err (AssertionError "Couldn't determine n_kv_head from GQA param") /\
  resolve_n_kv_head None (10 ^ 400) 64 = Err OverflowError.
Proof.
  split; [|split].
  - apply (proj2 (proj1 (proj1 (proj2 (gqa_resolution_last_match 8 64 ltac:(lia))) ltac:(vm_compute; reflexivity)) 8)).
    split; [lia|]. split; [reflexivity|].
    intros y Hy. unfold gqa_match. apply Z.eqb_neq. lia.
  - apply (proj2 (proj2 (proj1 (proj2 (gqa_resolution_last_match 3 64 ltac:(lia))) ltac:(vm_compute; reflexivity)))).
    intros y Hy. unfold gqa_match. apply Z.eqb_neq. lia.
  - apply (proj1 (gqa_resolution_last_match (10 ^ 400) 64 ltac:(vm_compute; discriminate))).
    vm_compute. discriminate.
Defined.

(** C3 (counterexample): with head count 0 and GQA factor 0 every [x]
    matches ([0.0 / x == 0.0]), yet resolution succeeds, and with the last
    candidate 255 rather than the first. *)
Lemma zero_heads_resolve_last :
  resolve_n_kv_head None 0 0 = Ok 255 /\ gqa_match 0 1 0 = true /\ gqa_match 0 2 0 = true.
Proof. split; [|split]; vm_compute; reflexivity. Qed.

(* ------------------------------------------------------------------------- *)
(** ** Tensor names and shapes handed to the writer *)

(** C4: a tensor whose name ends in neither [.weight] nor [.bias] is not
    rejected when an earlier tensor set [suffix]: its base name is looked up
    unchanged and it is emitted with the earlier tensor's suffix.  Only as
    the first such-named tensor of the list does it fail, and then with
    [UnboundLocalError]. *)
Lemma stale_suffix_reused (nm : string -> option string) (a b : string) :
  nm "output"%string = Some a -> nm "norm"%string = Some b ->
  add_tensors nm ""
    [mk_tensor "output.weight" [4; 8] 0 (pint 0) (pint 0);
     mk_tensor "norm" [4] 0 (pint 0) (pint 0)] =
    Ok [mk_tensor_record (a +:+ ".weight") [8; 4] 0 "";
        mk_tensor_record (b +:+ ".weight") [4] 0 ""] /\
  add_tensors nm "" [mk_tensor "norm" [4] 0 (pint 0) (pint 0)] = Err UnboundLocalError.
Proof.
  intros Ha Hb. split; vm_compute; rewrite ?Ha, ?Hb; vm_compute; reflexivity.
Qed.

Lemma stale_suffix_reused_witness :
  add_tensors llama_name_map_globals ""
    [mk_tensor "output.weight" [4; 8] 0 (pint 0) (pint 0);
     mk_tensor "norm" [4] 0 (pint 0) (pint 0)] =
    Ok [mk_tensor_record "output.weight" [8; 4] 0 "";
        mk_tensor_record "output_norm.weight" [4] 0 ""].
Proof.
  destruct (stale_suffix_reused llama_name_map_globals "output" "output_norm"
              ltac:(reflexivity) ltac:(reflexivity)) as [E _].
  exact E.
Defined.

Lemma temp_dims_swap (ds : list Z) :
  temp_dims ds = match ds with d0 :: d1 :: r => d1 :: d0 :: r | _ => ds end.
Proof. destruct ds as [|d0 [|d1 r]]; reflexivity. Qed.

Lemma add_tensors_loop_shapes (nm : string -> option string) (data : string)
    (ts : list Tensor) : forall suffix recs,
  add_tensors_loop nm data suffix ts = Ok recs ->
  Forall2 (fun t r => rec_shape r = temp_dims (dims t)) ts recs.
Proof.
  induction ts as [|t ts IH]; intros suffix recs H; cbn [add_tensors_loop] in H.
  - injection H as <-. constructor.
  - destruct (negb _); [discriminate|].
    destruct (if ends_with ".weight" (name t) then _ else _) as [name1 suffix'].
    destruct (nm name1); [|discriminate].
    destruct suffix'; [|discriminate].
    inv_bind H. inv_bind H. injection H as <-.
    constructor; [reflexivity|]. eapply IH. exact Ha0.
Qed.

(** C7: every tensor handed to the writer is reported with its first two
    dimensions swapped when it has more than one dimension, and with its
    dimensions unchanged otherwise. *)
Lemma reported_dims_swap (nm : string -> option string) (data : string)
    (ts : list Tensor) (recs : list tensor_record) :
  add_tensors nm data ts = Ok recs ->
  Forall2 (fun t r =>
    ((1 < length (dims t))%nat ->
       exists d0 d1 ds, dims t = d0 :: d1 :: ds /\ rec_shape r = d1 :: d0 :: ds) /\
    ((length (dims t) <= 1)%nat -> rec_shape r = dims t)) ts recs.
Proof.
  intros H. apply add_tensors_loop_shapes in H.
  eapply Forall2_impl; [exact H|]. intros t r Hr. rewrite Hr, temp_dims_swap.
  destruct (dims t) as [|d0 [|d1 ds]]; cbn [length]; split; intros Hl;
    try reflexivity; try lia.
  exists d0, d1, ds. split; reflexivity.
Qed.

Lemma reported_dims_swap_witness :
  exists recs,
    add_tensors llama_name_map_globals ""
      [mk_tensor "output.weight" [4; 8] 0 (pint 0) (pint 0);
       mk_tensor "norm.weight" [4] 0 (pint 0) (pint 0)] = Ok recs /\
    map rec_shape recs = [[8; 4]; [4]] /\
    Forall2 (fun t r =>
      ((1 < length (dims t))%nat ->
         exists d0 d1 ds, dims t = d0 :: d1 :: ds /\ rec_shape r = d1 :: d0 :: ds) /\
      ((length (dims t) <= 1)%nat -> rec_shape r = dims t))
      [mk_tensor "output.weight" [4; 8] 0 (pint 0) (pint 0);
       mk_tensor "norm.weight" [4] 0 (pint 0) (pint 0)] recs.
Proof.
  destruct (add_tensors llama_name_map_globals ""
      [mk_tensor "output.weight" [4; 8] 0 (pint 0) (pint 0);
       mk_tensor "norm.weight" [4] 0 (pint 0) (pint 0)]) as [recs|e] eqn:E;
    [|vm_compute in E; discriminate].
  exists recs. split; [reflexivity|]. split.
  - vm_compute in E. injection E as <-. reflexivity.
  - exact (reported_dims_swap _ _ _ _ E).
Defined.

(* ------------------------------------------------------------------------- *)
(** ** The override vocabulary *)

Definition ov_tok (it : override_item) : string :=
  match it with OvPair tok _ | OvTriple tok _ _ => tok end.
Definition ov_score (it : override_item) : Z :=
  match it with OvPair _ score | OvTriple _ score _ => score end.

(** The types carried by the items, in order. *)
Fixpoint ov_types (items : list override_item) : list Z :=
  match items with
  | [] => []
  | OvTriple _ _ ty :: rest => ty :: ov_types rest
  | OvPair _ _ :: rest => ov_types rest
  end.

Lemma override_loop_lists (items : list override_item) :
  override_loop items = (map ov_tok items, map ov_score items, ov_types items).
Proof.
  induction items as [|[tok score|tok score ty] rest IH]; [reflexivity| |];
    cbn [override_loop map ov_types ov_tok ov_score]; rewrite IH; reflexivity.
Qed.

Lemma ov_types_length (items : list override_item) :
  (length (ov_types items) <= length items)%nat /\
  ((exists tok score, In (OvPair tok score) items) ->
     (length (ov_types items) < length items)%nat).
Proof.
  induction items as [|[tok score|tok score ty] rest [IH1 IH2]]; cbn [ov_types length].
  - split; [lia|]. intros (? & ? & []).
  - split; [lia|]. intros _. lia.
  - split; [lia|]. intros (t & sc & [E|Hin]); [discriminate|].
    specialize (IH2 (ex_intro _ t (ex_intro _ sc Hin))). lia.
Qed.

(** C8 (code bug): in override mode the emitted token list is the items'
    tokens and the emitted type list, when there is one, is the types of
    the items that carry one, in order.  The writer gets it as a flat list,
    so the [i]-th type goes with the [i]-th token whether or not that
    token's item carried a type; as soon as one item omits its type, the
    type list is shorter than the token list and out of step with it.  No
    type list is emitted when no item carries a type. *)
Lemma override_types_positional (n_vocab : Z) (items : list override_item)
    (recs : vocab_records) :
  add_vocab_override n_vocab items = Ok recs ->
  out_tokens recs = map ov_tok items /\ out_scores recs = map ov_score items /\
  out_toktypes recs = match ov_types items with [] => None | tys => Some tys end /\
  ((exists tok score, In (OvPair tok score) items) ->
     (length (ov_types items) < length (out_tokens recs))%nat).
Proof.
  unfold add_vocab_override. rewrite override_loop_lists. intros H.
  inv_bind H. injection H as <-. cbn.
  split; [reflexivity|]. split; [reflexivity|]. split.
  - destruct (ov_types items); reflexivity.
  - rewrite length_map. apply ov_types_length.
Qed.

Lemma override_types_positional_witness :
  add_vocab_override 2 [OvTriple "a" 0 2; OvPair "b" 0] =
    Ok (mk_vocab_records ["a"; "b"] [0; 0] (Some [2])) /\
  exists recs, add_vocab_override 2 [OvTriple "a" 0 2; OvPair "b" 0] = Ok recs /\
    out_toktypes recs = Some [2].
Proof.
  split; [vm_compute; reflexivity|].
  destruct (add_vocab_override 2 [OvTriple "a" 0 2; OvPair "b" 0]) as [recs|e] eqn:E;
    [|vm_compute in E; discriminate].
  exists recs. split; [reflexivity|].
  exact (proj1 (proj2 (proj2 (override_types_positional _ _ _ E)))).
Defined.

(** C8 (failing input): the first item omits its type and the second
    carries type 3; the single emitted type 3 is the one at position 0,
    the position of the first token. *)
Lemma untyped_item_gets_type :
  add_vocab_override 2 [OvPair "a" 0; OvTriple "b" 0 3] =
    Ok (mk_vocab_records ["a"; "b"] [0; 0] (Some [3])).
Proof. vm_compute. reflexivity. Qed.

(* ========================================================================= *)
(** * Further properties of the decoder *)

Ltac inv_bind_as H a Ha := apply bind_Ok in H; destruct H as (a & Ha & H).

Lemma u32s_bytes_blen (ds : list Z) : blen (u32s_bytes ds) = 4 * Z.of_nat (length ds).
Proof. unfold blen. rewrite u32s_bytes_length. lia. Qed.

Lemma u32_bytes_blen (d : Z) : blen (u32_bytes d) = 4.
Proof. reflexivity. Qed.

Lemma unpack_u32_bytes (d : Z) : 0 <= d < 2 ^ 32 -> unpack_u32 (u32_bytes d) = Ok d.
Proof. intros Hd. unfold unpack_u32. rewrite le_value_u32_bytes by exact Hd. reflexivity. Qed.

Lemma unpack_u32s_bytes (ds : list Z) :
  Forall (fun d => 0 <= d < 2 ^ 32) ds ->
  unpack_u32s (Z.of_nat (length ds)) (u32s_bytes ds) = Ok ds.
Proof.
  intros H. unfold unpack_u32s. rewrite u32s_bytes_blen, Z.eqb_refl, Nat2Z.id.
  rewrite split_u32_u32s by exact H. reflexivity.
Qed.

(** [Hyperparameters.load] reads back seven little-endian u32 values and
    reports 28 bytes read; [n_ff] is left at 0. *)
Lemma hp_load_round_trip (p rest : string) (a b c d e f g : Z) :
  Forall (fun v => 0 <= v < 2 ^ 32) [a; b; c; d; e; f; g] ->
  hp_load (p +:+ u32s_bytes [a; b; c; d; e; f; g] +:+ rest) (blen p) =
    Ok (mk_hp a b c d e f g 0, 28).
Proof.
  intros H. unfold hp_load.
  replace (blen p + 4 * 7) with (blen p + blen (u32s_bytes [a; b; c; d; e; f; g]))
    by (rewrite u32s_bytes_blen; reflexivity).
  rewrite py_slice_mid.
  change 7 with (Z.of_nat (length [a; b; c; d; e; f; g])).
  rewrite unpack_u32s_bytes by exact H. reflexivity.
Qed.

Lemma hp_load_round_trip_witness :
  hp_load ("tjgg" +:+ u32s_bytes [1; 2; 3; 4; 5; 6; 7] +:+ "")%string (blen "tjgg") =
    Ok (mk_hp 1 2 3 4 5 6 7 0, 28).
Proof. apply hp_load_round_trip. repeat constructor; lia. Defined.

(** [Hyperparameters.load] fails with [struct.error] when fewer than 28
    bytes remain after the offset. *)
Lemma hp_load_short (data : string) (offset : Z) :
  0 <= offset -> blen data < offset + 28 -> hp_load data offset = Err StructError.
Proof.
  intros H0 H1. unfold hp_load, unpack_u32s.
  pose proof (py_slice_length data offset (offset + 4 * 7) ltac:(lia)) as L.
  destruct (blen (py_slice data offset (offset + 4 * 7)) =? 4 * 7) eqn:E;
    [apply Z.eqb_eq in E; lia | reflexivity].
Qed.

Lemma hp_load_short_witness : hp_load (ggjt_header [1; 2; 3]) 8 = Err StructError.
Proof. apply hp_load_short; [lia | vm_compute; reflexivity]. Defined.

Lemma vocab_items_round_trip (items : list vocab_item) : forall (p rest : string),
  Forall (fun it => blen (vbytes it) < 4096 /\ 0 <= vscore it < 2 ^ 32) items ->
  vocab_items (p +:+ vocab_bytes items +:+ rest) (blen p) (length items) =
    Ok (items, blen p + blen (vocab_bytes items)).
Proof.
  induction items as [|[v s] its IH]; intros p rest Hall.
  - cbn [vocab_items]. change (blen (vocab_bytes [])) with 0. rewrite Z.add_0_r. reflexivity.
  - inversion Hall as [|? ? [Hv Hs] Hits]; subst. cbn [vbytes vscore] in Hv, Hs.
    assert (Hv0 : 0 <= blen v) by (unfold blen; lia).
    set (L := blen v).
    set (DATA := (p +:+ vocab_bytes (mk_vitem v s :: its) +:+ rest)%string).
    assert (D1 : DATA = (p +:+ u32_bytes L +:+ (v +:+ u32_bytes s +:+ vocab_bytes its +:+ rest))%string)
      by (unfold DATA; cbn [vocab_bytes]; unfold vocab_entry; rewrite !append_assoc; reflexivity).
    assert (D2 : DATA = ((p +:+ u32_bytes L) +:+ v +:+ (u32_bytes s +:+ vocab_bytes its +:+ rest))%string)
      by (unfold DATA; cbn [vocab_bytes]; unfold vocab_entry; rewrite !append_assoc; reflexivity).
    assert (D3 : DATA = ((p +:+ u32_bytes L +:+ v) +:+ u32_bytes s +:+ (vocab_bytes its +:+ rest))%string)
      by (unfold DATA; cbn [vocab_bytes]; unfold vocab_entry; rewrite !append_assoc; reflexivity).
    assert (D4 : DATA = ((p +:+ vocab_entry (mk_vitem v s)) +:+ vocab_bytes its +:+ rest)%string)
      by (unfold DATA; cbn [vocab_bytes]; rewrite !append_assoc; reflexivity).
    assert (S1 : py_slice DATA (blen p) (blen p + 4) = u32_bytes L)
      by (rewrite D1, <- (u32_bytes_blen L); apply py_slice_mid).
    assert (S2 : py_slice DATA (blen p + 4) (blen p + 4 + L) = v).
    { rewrite D2. replace (blen p + 4) with (blen (p +:+ u32_bytes L))
        by (rewrite blen_append; reflexivity). apply py_slice_mid. }
    assert (S3 : py_slice DATA (blen p + 4 + L) (blen p + 4 + L + 4) = u32_bytes s).
    { rewrite D3. replace (blen p + 4 + L) with (blen (p +:+ u32_bytes L +:+ v))
        by (rewrite !blen_append, u32_bytes_blen; unfold L; lia).
      rewrite <- (u32_bytes_blen s). apply py_slice_mid. }
    cbn [vocab_items length].
    rewrite S1, unpack_u32_bytes by lia. cbn [bind].
    unfold py_assert. replace (L <? 4096) with true by (symmetry; apply Z.ltb_lt; exact Hv).
    cbn [bind]. rewrite S2, S3, unpack_u32_bytes by exact Hs. cbn [bind].
    replace (blen p + 4 + L + 4) with (blen (p +:+ vocab_entry (mk_vitem v s)))
      by (unfold vocab_entry; rewrite !blen_append, !u32_bytes_blen; unfold L; cbn [vbytes]; lia).
    rewrite D4, IH by exact Hits. cbn [bind fst snd].
    f_equal. f_equal. cbn [vocab_bytes]. rewrite !blen_append. lia.
Qed.

(** [Vocab.load] reads back a vocabulary written as length-prefixed byte
    strings each followed by a 4-byte score, and reports the number of
    bytes it spans. *)
Lemma vocab_load_round_trip (p rest : string) (items : list vocab_item) :
  Forall (fun it => blen (vbytes it) < 4096 /\ 0 <= vscore it < 2 ^ 32) items ->
  vocab_load (p +:+ vocab_bytes items +:+ rest) (blen p) (Z.of_nat (length items)) =
    Ok (items, blen (vocab_bytes items)).
Proof.
  intros H. unfold vocab_load. rewrite Nat2Z.id, vocab_items_round_trip by exact H.
  cbn [bind fst snd]. f_equal. f_equal. lia.
Qed.

Lemma vocab_load_round_trip_witness :
  vocab_load ("" +:+ vocab_bytes [mk_vitem "ab" 5; mk_vitem "" 7] +:+ "xyz")%string (blen "") 2 =
    Ok ([mk_vitem "ab" 5; mk_vitem "" 7], 18).
Proof.
  apply (vocab_load_round_trip "" "xyz" [mk_vitem "ab" 5; mk_vitem "" 7]).
  repeat constructor; vm_compute; congruence.
Defined.

(** [Vocab.load] rejects an item length of 4096 or more. *)
Lemma vocab_load_absurd_length (p rest : string) (n len : Z) :
  0 < n -> 4096 <= len < 2 ^ 32 ->
  vocab_load (p +:+ u32_bytes len +:+ rest) (blen p) n =
    Err (AssertionError "Absurd vocab item length").
Proof.
  intros Hn Hl. unfold vocab_load.
  destruct (Z.to_nat n) as [|k] eqn:N; [lia|]. cbn [vocab_items].
  replace (blen p + 4) with (blen p + blen (u32_bytes len)) by reflexivity.
  rewrite py_slice_mid, unpack_u32_bytes by lia.
  cbn [bind]. unfold py_assert.
  replace (len <? 4096) with false by (symmetry; apply Z.ltb_ge; lia). reflexivity.
Qed.

Lemma vocab_load_absurd_length_witness :
  vocab_load ("" +:+ u32_bytes 5000 +:+ "")%string (blen "") 1 =
    Err (AssertionError "Absurd vocab item length").
Proof. apply vocab_load_absurd_length; lia. Defined.

Lemma wrap64_id (z : Z) : - 2 ^ 63 <= z < 2 ^ 63 -> wrap64 z = z.
Proof. intros H. unfold wrap64. rewrite Z.mod_small by lia. lia. Qed.








(** The checks of a directory entry header, in the order [Tensor.load]
    makes them: fewer than 12 bytes left is a [struct.error]; then a
    dimension count above 4, a name length of 4096 or more, and a type
    missing from [GGML_QUANT_SIZES] are assertion failures. *)
Lemma tensor_load_header_errors (p rest : string) (nd nl dt : Z) :
  Forall (fun v => 0 <= v < 2 ^ 32) [nd; nl; dt] ->
  (forall data o, 0 <= o -> blen data < o + 12 -> tensor_load data (pint o) = Err StructError) /\
  (4 < nd -> tensor_load (p +:+ u32s_bytes [nd; nl; dt] +:+ rest) (pint (blen p)) =
               Err (AssertionError "Invalid tensor dimensions")) /\
  (nd <= 4 -> 4096 <= nl ->
     tensor_load (p +:+ u32s_bytes [nd; nl; dt] +:+ rest) (pint (blen p)) =
       Err (AssertionError "Absurd tensor name length")) /\
  (nd <= 4 -> nl < 4096 -> GGML_QUANT_SIZES dt = None ->
     tensor_load (p +:+ u32s_bytes [nd; nl; dt] +:+ rest) (pint (blen p)) =
       Err (AssertionError "Unknown tensor type")).
Proof.
  intros H. pose proof (Forall_inv H) as Hnd. cbn beta in Hnd.
  assert (S1 : slice_num (p +:+ u32s_bytes [nd; nl; dt] +:+ rest)%string (pint (blen p))
                 (padd (pint (blen p)) (pint 12)) = Ok (u32s_bytes [nd; nl; dt])).
  { unfold slice_num, padd, pint, mk_num. cbn [kind val join_kind].
    replace (blen p + 12) with (blen p + blen (u32s_bytes [nd; nl; dt]))
      by (rewrite u32s_bytes_blen; reflexivity).
    rewrite py_slice_mid. reflexivity. }
  pose proof (unpack_u32s_bytes [nd; nl; dt] H) as U1.
  change (Z.of_nat (length [nd; nl; dt])) with 3 in U1.
  split; [|split; [|split]].
  - intros data o Ho Hl. unfold tensor_load, slice_num, padd, pint, mk_num.
    cbn [kind val join_kind bind]. unfold unpack_u32s.
    pose proof (py_slice_length data o (o + 12) ltac:(lia)) as L.
    destruct (blen (py_slice data o (o + 12)) =? 4 * 3) eqn:E;
      [apply Z.eqb_eq in E; lia | reflexivity].
  - intros Hgt. unfold tensor_load. rewrite S1. cbn [bind]. rewrite U1. cbn [bind].
    unfold py_assert. replace (nd <=? 4) with false by (symmetry; apply Z.leb_gt; exact Hgt).
    rewrite andb_false_r. reflexivity.
  - intros Hle Hnl. unfold tensor_load. rewrite S1. cbn [bind]. rewrite U1. cbn [bind].
    unfold py_assert. replace (nd <=? 4) with true by (symmetry; apply Z.leb_le; exact Hle).
    replace (nd >=? 0) with true by (symmetry; apply Z.geb_le; lia).
    replace (nl <? 4096) with false by (symmetry; apply Z.ltb_ge; exact Hnl).
    reflexivity.
  - intros Hle Hnl Hq. unfold tensor_load. rewrite S1. cbn [bind]. rewrite U1. cbn [bind].
    unfold py_assert. replace (nd <=? 4) with true by (symmetry; apply Z.leb_le; exact Hle).
    replace (nd >=? 0) with true by (symmetry; apply Z.geb_le; lia).
    replace (nl <? 4096) with true by (symmetry; apply Z.ltb_lt; exact Hnl).
    cbn [andb bind]. rewrite Hq. reflexivity.
Qed.

Lemma tensor_load_header_errors_witness :
  tensor_load "tjgg" (pint 0) = Err StructError /\
  tensor_load ("" +:+ u32s_bytes [5; 1; 0] +:+ "")%string (pint (blen "")) =
    Err (AssertionError "Invalid tensor dimensions") /\
  tensor_load ("" +:+ u32s_bytes [1; 4096; 0] +:+ "")%string (pint (blen "")) =
    Err (AssertionError "Absurd tensor name length") /\
  tensor_load ("" +:+ u32s_bytes [1; 1; 4] +:+ "")%string (pint (blen "")) =
    Err (AssertionError "Unknown tensor type").
Proof.
  split; [|split; [|split]].
  - apply (proj1 (tensor_load_header_errors "" "" 0 0 0 ltac:(repeat constructor; lia)));
      [lia | vm_compute; reflexivity].
  - apply (proj1 (proj2 (tensor_load_header_errors "" "" 5 1 0
             ltac:(repeat constructor; lia)))). lia.
  - apply (proj1 (proj2 (proj2 (tensor_load_header_errors "" "" 1 4096 0
             ltac:(repeat constructor; lia))))); lia.
  - apply (proj2 (proj2 (proj2 (tensor_load_header_errors "" "" 1 1 4
             ltac:(repeat constructor; lia))))); [lia | lia | reflexivity].
Defined.



Lemma scan_exit (fuel : nat) (data : string) (o : pynum) (ts : list Tensor)
    (tm : gmap string nat) (o' : pynum) (ts' : list Tensor) (tm' : gmap string nat) :
  scan fuel data o ts tm = Ok (o', ts', tm') -> blen data <= val o'.
Proof.
  revert o ts tm. induction fuel as [|fuel IH]; intros o ts tm H; cbn [scan] in H; [discriminate|].
  destruct (val o <? blen data) eqn:E.
  - inv_bind H. eapply IH. exact H.
  - injection H as <- _ _. apply Z.ltb_ge. exact E.
Qed.

(** A successful decode ends with the cursor at or past the end of the
    buffer: the directory loop stops only there. *)
Lemma decode_ends_past_buffer (fuel : nat) (data : string) (m : GGMLV3Model) (off : pynum) :
  ggml_decode fuel data = Ok (m, off) -> blen data <= val off.
Proof.
  intros H. destruct (ggml_decode_Ok _ _ _ _ H) as (hp & o & Hs & _).
  exact (scan_exit _ _ _ _ _ _ _ _ Hs).
Qed.

Lemma decode_ends_past_buffer_witness :
  exists m off, ggml_decode 2 ff_only_buffer = Ok (m, off) /\ blen ff_only_buffer <= val off.
Proof.
  destruct (ggml_decode 2 ff_only_buffer) as [[m off]|e] eqn:E; [|vm_compute in E; discriminate].
  exists m, off. split; [reflexivity|]. exact (decode_ends_past_buffer _ _ _ _ E).
Defined.

Lemma tensor_map_of_spec (ts : list Tensor) :
  (forall n i, tensor_map_of ts !! n = Some i ->
     exists t, ts !! i = Some t /\ name t = n /\
       forall j t', (i < j)%nat -> ts !! j = Some t' -> name t' <> n) /\
  (forall t, In t ts -> exists i, tensor_map_of ts !! name t = Some i).
Proof.
  induction ts as [|t0 ts [IH1 IH2]] using rev_ind.
  - split; [intros n i H; discriminate | intros t []].
  - unfold tensor_map_of in *. rewrite build_tensor_map_app. cbn [Nat.add]. split.
    + intros n i H. destruct (decide (name t0 = n)) as [<-|Hne].
      * rewrite lookup_insert_eq in H. injection H as <-.
        exists t0. split; [apply list_lookup_middle; reflexivity|]. split; [reflexivity|].
        intros j t' Hj Hl. apply lookup_lt_Some in Hl. rewrite length_app in Hl. cbn in Hl. lia.
      * rewrite lookup_insert_ne in H by exact Hne.
        destruct (IH1 n i H) as (t & Ht & Hn & Hlast).
        exists t. split; [apply lookup_app_l_Some; exact Ht|]. split; [exact Hn|].
        intros j t' Hj Hl. pose proof (lookup_lt_Some _ _ _ Hl) as Hlt.
        rewrite length_app in Hlt. cbn in Hlt.
        destruct (decide (j = length ts)) as [->|Hj'].
        -- rewrite list_lookup_middle in Hl by reflexivity. injection Hl as <-. exact Hne.
        -- rewrite lookup_app_l in Hl by lia. exact (Hlast j t' Hj Hl).
    + intros t Ht. apply in_app_or in Ht as [Ht|[<-|[]]].
      * destruct (decide (name t0 = name t)) as [E|Hne].
        -- rewrite E, lookup_insert_eq. eauto.
        -- rewrite lookup_insert_ne by exact Hne. exact (IH2 t Ht).
      * rewrite lookup_insert_eq. eauto.
Qed.

(** After a successful decode, [tensor_map] maps a name to the position of
    the last tensor carrying it, and every tensor's name is a key of it. *)
Lemma decoded_tensor_map_last (fuel : nat) (data : string) (m : GGMLV3Model) (off : pynum) :
  ggml_decode fuel data = Ok (m, off) ->
  (forall n i, tensor_map m !! n = Some i ->
     exists t, tensors m !! i = Some t /\ name t = n /\
       forall j t', (i < j)%nat -> tensors m !! j = Some t' -> name t' <> n) /\
  (forall t, In t (tensors m) -> exists i, tensor_map m !! name t = Some i).
Proof.
  intros H. destruct (ggml_decode_Ok _ _ _ _ H) as (hp & o & Hs & _).
  destruct (scan_Ok _ _ _ _ _ _ _ _ Hs) as [_ Hm].
  rewrite (Hm eq_refl). apply tensor_map_of_spec.
Qed.

Lemma decoded_tensor_map_last_witness :
  exists m off, ggml_decode 2 ff_only_buffer = Ok (m, off) /\
    tensor_map m !! ff_tensor_name = Some 0%nat /\
    exists t, tensors m !! 0%nat = Some t /\ name t = ff_tensor_name.
Proof.
  destruct (ggml_decode 2 ff_only_buffer) as [[m off]|e] eqn:E; [|vm_compute in E; discriminate].
  exists m, off. split; [reflexivity|].
  assert (Hk : tensor_map m !! ff_tensor_name = Some 0%nat)
    by (vm_compute in E; injection E as <- _; reflexivity).
  split; [exact Hk|].
  destruct (proj1 (decoded_tensor_map_last _ _ _ _ E) _ _ Hk) as (t & Ht & Hn & _).
  eauto.
Defined.

Lemma validate_header_8 (data : string) (o h : Z) : validate_header data o = Ok h -> h = 8.
Proof.
  unfold validate_header. destruct (negb _); [discriminate|].
  destruct (unpack_u32 _); cbn [bind]; [|discriminate].
  destruct (negb _); [discriminate|]. congruence.
Qed.

Lemma vocab_items_length (data : string) (o : Z) (n : nat) (r : list vocab_item * Z) :
  vocab_items data o n = Ok r -> length (fst r) = n.
Proof.
  revert o r. induction n as [|n IH]; intros o r H; cbn [vocab_items] in H.
  - injection H as <-. reflexivity.
  - inv_bind H. inv_bind H. inv_bind H. inv_bind H. injection H as <-.
    cbn [fst length]. f_equal. eapply IH. eassumption.
Qed.

Lemma decode_hparams_vocab_facts (fuel : nat) (data : string) (m : GGMLV3Model) (off : pynum) :
  ggml_decode fuel data = Ok (m, off) ->
  [n_vocab (hyperparameters m); n_embd (hyperparameters m); n_mult (hyperparameters m);
   n_head (hyperparameters m); n_layer (hyperparameters m); n_rot (hyperparameters m);
   ftype (hyperparameters m)] = split_u32 7 (String.substring 8 28 data) /\
  length (vocab m) = Z.to_nat (n_vocab (hyperparameters m)).
Proof.
  unfold ggml_decode, model_load. intros H.
  inv_bind_as H h Hh. apply validate_header_8 in Hh. subst h.
  inv_bind_as H hr Hhr. inv_bind_as H vr Hvr. inv_bind_as H sr Hsr.
  destruct sr as [[o' ts] tm]. inv_bind_as H hp Hhp. injection H as <- _. cbn [hyperparameters vocab].
  assert (Hf : exists d, hp = mk_hp (n_vocab (fst hr)) (n_embd (fst hr)) (n_mult (fst hr))
                 (n_head (fst hr)) (n_layer (fst hr)) (n_rot (fst hr)) (ftype (fst hr)) d).
  { unfold set_n_ff in Hhp. destruct (_ !! ff_tensor_name); [|discriminate].
    destruct (_ !! _) as [ft|]; [|discriminate]. destruct (dims ft !! 1%nat) as [d|]; [|discriminate].
    injection Hhp as <-. eauto. }
  destruct Hf as [d ->]. cbn [n_vocab n_embd n_mult n_head n_layer n_rot ftype].
  split.
  - unfold hp_load in Hhr. inv_bind_as Hhr vs Hvs.
    unfold unpack_u32s in Hvs. destruct (_ =? _) eqn:L in Hvs; [|discriminate].
    apply Z.eqb_eq in L. rewrite py_slice_length in L by lia.
    rewrite py_slice_inside in Hvs by lia.
    change (Ok (split_u32 7 (String.substring 8 28 data)) = Ok vs) in Hvs.
    assert (Vs : vs = split_u32 7 (String.substring 8 28 data)) by congruence.
    destruct vs as [|a [|b [|c [|e [|f [|g [|i [|j vs]]]]]]]]; try discriminate.
    injection Hhr as <-. cbn [fst n_vocab n_embd n_mult n_head n_layer n_rot ftype].
    exact Vs.
  - unfold vocab_load in Hvr. inv_bind_as Hvr r Hr. injection Hvr as <-. cbn [fst].
    exact (vocab_items_length _ _ _ _ Hr).
Qed.

(** The decoded hyperparameters, [n_ff] apart, are the seven little-endian
    u32 values at bytes 8 to 35, and the vocabulary has [n_vocab] items. *)
Lemma decoded_hparams_vocab (fuel : nat) (data : string) (m : GGMLV3Model) (off : pynum) :
  ggml_decode fuel data = Ok (m, off) ->
  [n_vocab (hyperparameters m); n_embd (hyperparameters m); n_mult (hyperparameters m);
   n_head (hyperparameters m); n_layer (hyperparameters m); n_rot (hyperparameters m);
   ftype (hyperparameters m)] = split_u32 7 (String.substring 8 28 data) /\
  length (vocab m) = Z.to_nat (n_vocab (hyperparameters m)).
Proof. apply decode_hparams_vocab_facts. Qed.

Lemma decoded_hparams_vocab_witness :
  exists m off, ggml_decode 2 ff_only_buffer = Ok (m, off) /\
    [n_vocab (hyperparameters m); n_embd (hyperparameters m); n_mult (hyperparameters m);
     n_head (hyperparameters m); n_layer (hyperparameters m); n_rot (hyperparameters m);
     ftype (hyperparameters m)] = split_u32 7 (String.substring 8 28 ff_only_buffer) /\
    length (vocab m) = Z.to_nat (n_vocab (hyperparameters m)).
Proof.
  destruct (ggml_decode 2 ff_only_buffer) as [[m off]|e] eqn:E; [|vm_compute in E; discriminate].
  exists m, off. split; [reflexivity|]. exact (decoded_hparams_vocab _ _ _ _ E).
Defined.

Lemma tensor_load_float (data : string) (o : pynum) :
  kind o = KFloat -> tensor_load data o = Err TypeError.
Proof. destruct o as [k x]. cbn [kind]. intros ->. reflexivity. Qed.

Lemma scan_float_stop (fuel : nat) (data : string) (o : pynum) (ts : list Tensor)
    (tm : gmap string nat) (o' : pynum) (ts' : list Tensor) (tm' : gmap string nat) :
  kind o = KFloat -> scan fuel data o ts tm = Ok (o', ts', tm') -> ts' = ts.
Proof.
  intros Hk H. destruct fuel as [|fuel]; cbn [scan] in H; [discriminate|].
  destruct (val o <? blen data).
  - rewrite tensor_load_float in H by exact Hk. discriminate.
  - injection H as _ <- _. reflexivity.
Qed.

Lemma tensor_load_zero_dims (data : string) (o : pynum) (t : Tensor) (d : pynum) :
  tensor_load data o = Ok (t, d) -> dims t = [] -> kind (padd o d) = KFloat.
Proof.
  intros H Hd. destruct (tensor_load_Ok _ _ _ _ H) as (b & ty & _ & _ & _ & _ & _ & _ & Hl & ->).
  rewrite Hd in Hl. rewrite Hl.
  destruct o as [[] x]; destruct (start_offset t) as [[] y]; reflexivity.
Qed.

Lemma scan_zero_dims_last (fuel : nat) (data : string) (o : pynum) (ts : list Tensor)
    (tm : gmap string nat) (o' : pynum) (ts' : list Tensor) (tm' : gmap string nat) :
  scan fuel data o ts tm = Ok (o', ts', tm') ->
  forall i t, ts' !! i = Some t -> (length ts <= i)%nat -> dims t = [] -> length ts' = S i.
Proof.
  revert o ts tm. induction fuel as [|fuel IH]; intros o ts tm H i t Hi Hle Hd;
    cbn [scan] in H; [discriminate|].
  destruct (val o <? blen data).
  - inv_bind_as H r Hr. destruct r as [t0 d]. cbn [fst snd] in H.
    destruct (decide (i = length ts)) as [->|Hne].
    + destruct (scan_Ok _ _ _ _ _ _ _ _ H) as [[new [-> _]] _].
      rewrite <- app_assoc in Hi. change ([t0] ++ new) with (t0 :: new) in Hi.
      rewrite list_lookup_middle in Hi by reflexivity. injection Hi as ->.
      pose proof (tensor_load_zero_dims _ _ _ _ Hr Hd) as Hk.
      pose proof (scan_float_stop _ _ _ _ _ _ _ _ Hk H) as E.
      rewrite <- app_assoc in E. apply app_inv_head in E. rewrite <- app_assoc, E.
      rewrite length_app. cbn. lia.
    + apply (IH _ _ _ H i t Hi); [rewrite length_app; cbn; lia | exact Hd].
  - injection H as _ <- _. apply lookup_lt_Some in Hi. lia.
Qed.

(** A decoded tensor with no dimensions is always the last one: its byte
    length is the float [np.prod(()) * size // block], the cursor becomes a
    float, and reading any further entry slices the buffer with a float
    ([TypeError]). *)
Lemma zero_dim_tensor_is_last (fuel : nat) (data : string) (m : GGMLV3Model) (off : pynum) :
  ggml_decode fuel data = Ok (m, off) ->
  forall i t, tensors m !! i = Some t -> dims t = [] -> length (tensors m) = S i.
Proof.
  intros H i t Hi Hd. destruct (ggml_decode_Ok _ _ _ _ H) as (hp & o & Hs & _).
  exact (scan_zero_dims_last _ _ _ _ _ _ _ _ Hs i t Hi (Nat.le_0_l _) Hd).
Qed.

Lemma zero_dim_tensor_is_last_witness :
  exists m off t, ggml_decode 3 zero_dim_last_buffer = Ok (m, off) /\
    tensors m !! 1%nat = Some t /\ dims t = [] /\ length (tensors m) = 2%nat.
Proof.
  destruct (ggml_decode 3 zero_dim_last_buffer) as [[m off]|e] eqn:E;
    [|vm_compute in E; discriminate].
  destruct (tensors m !! 1%nat) as [t|] eqn:T; [|vm_compute in E; injection E as <- _; discriminate].
  assert (Hd : dims t = []) by (vm_compute in E; injection E as <- _; vm_compute in T;
                                injection T as <-; reflexivity).
  exists m, off, t. split; [reflexivity|]. split; [exact T|]. split; [exact Hd|].
  exact (zero_dim_tensor_is_last _ _ _ _ E 1%nat t T Hd).
Defined.

(* ========================================================================= *)
(** * Further properties of the transcoder *)

(* ------------------------------------------------------------------------- *)
(** ** The heuristic vocabulary *)

Lemma heuristic_loop_imap (items : list vocab_item) : forall tokid,
  heuristic_loop tokid items =
    (imap (fun i it => fst (heuristic_token (tokid + Z.of_nat i) (vbytes it))) items,
     map vscore items,
     imap (fun i it => snd (heuristic_token (tokid + Z.of_nat i) (vbytes it))) items).
Proof.
  induction items as [|it items IH]; intros tokid; [reflexivity|].
  cbn [heuristic_loop]. rewrite IH.
  destruct (heuristic_token tokid (vbytes it)) as [tok ty] eqn:Ht.
  cbn [imap map]. rewrite Z.add_0_r, Ht. cbn [fst snd].
  f_equal; [f_equal|]; f_equal; apply imap_ext; intros i x _; unfold compose;
    replace (tokid + Z.of_nat (S i)) with (tokid + 1 + Z.of_nat i) by lia; reflexivity.
Qed.

Lemma heuristic_token_type (tokid : Z) (vb : string) :
  (snd (heuristic_token tokid vb) = 3 <-> vb = ""%string) /\
  (snd (heuristic_token tokid vb) = 6 <->
     3 <= tokid <= 258 /\ String.length vb = 1%nat) /\
  (snd (heuristic_token tokid vb) = 1 \/ snd (heuristic_token tokid vb) = 3 \/
   snd (heuristic_token tokid vb) = 6).
Proof.
  unfold heuristic_token.
  destruct (String.length vb =? 0)%nat eqn:E0.
  - apply Nat.eqb_eq in E0. destruct vb; [|discriminate]. cbn [snd].
    split; [tauto|]. split; [split; [discriminate | cbn; lia] | auto].
  - apply Nat.eqb_neq in E0.
    assert (vb <> ""%string) by (intros ->; apply E0; reflexivity).
    destruct ((tokid >=? 3) && (tokid <=? 258) && (String.length vb =? 1)%nat) eqn:E1;
      cbn [snd].
    + apply andb_prop in E1 as [E1 E3]. apply andb_prop in E1 as [E1 E2].
      apply Z.geb_le in E1. apply Z.leb_le in E2. apply Nat.eqb_eq in E3.
      split; [split; [discriminate | tauto]|]. split; [tauto | auto].
    + split; [split; [discriminate | tauto]|]. split; [|auto].
      split; [discriminate|]. intros (H1 & H2).
      rewrite (proj2 (Z.geb_le _ _) (proj1 H1)), (proj2 (Z.leb_le _ _) (proj2 H1)),
        (proj2 (Nat.eqb_eq _ _) H2) in E1. discriminate.
Qed.

(** Without an override, [add_vocab] emits, for the item at position [i],
    the token and type [heuristic_token i] computes and the item's score,
    in order.  The type is 3 (control) exactly for an empty token, 6
    (byte) exactly for a one-byte token with id in [[3,258]], and 1
    (normal) otherwise. *)
Lemma heuristic_vocab_positional (items : list vocab_item) :
  out_tokens (add_vocab_heuristic items) =
    imap (fun i it => fst (heuristic_token (Z.of_nat i) (vbytes it))) items /\
  out_scores (add_vocab_heuristic items) = map vscore items /\
  out_toktypes (add_vocab_heuristic items) =
    Some (imap (fun i it => snd (heuristic_token (Z.of_nat i) (vbytes it))) items) /\
  (forall i it, items !! i = Some it ->
     exists ty, (imap (fun i it => snd (heuristic_token (Z.of_nat i) (vbytes it))) items) !! i = Some ty /\
       (ty = 3 <-> vbytes it = ""%string) /\
       (ty = 6 <-> 3 <= Z.of_nat i <= 258 /\ String.length (vbytes it) = 1%nat) /\
       (ty = 1 \/ ty = 3 \/ ty = 6)).
Proof.
  unfold add_vocab_heuristic. rewrite heuristic_loop_imap. cbn [out_tokens out_scores out_toktypes].
  split; [apply imap_ext; reflexivity|]. split; [reflexivity|].
  split; [f_equal; apply imap_ext; reflexivity|].
  intros i it Hi. eexists. rewrite list_lookup_imap, Hi. cbn [fmap option_fmap option_map].
  split; [reflexivity|]. apply heuristic_token_type.
Qed.

Lemma hex_digit_not_space (d : Z) : 0 <= d < 16 -> hex_digit_upper d <> " "%char.
Proof.
  intros Hd E. unfold hex_digit_upper in E. apply (f_equal nat_of_ascii) in E.
  change (nat_of_ascii " "%char) with 32%nat in E.
  destruct (d <? 10); rewrite nat_ascii_embedding in E by lia; lia.
Qed.

Lemma hex_upper_aux_no_space (fuel : nat) : forall n acc, 0 <= n ->
  ~ In " "%char (String.list_ascii_of_string acc) ->
  ~ In " "%char (String.list_ascii_of_string (hex_upper_aux fuel n acc)).
Proof.
  induction fuel as [|fuel IH]; intros n acc Hn Hacc; cbn [hex_upper_aux]; [exact Hacc|].
  assert (Hc : ~ In " "%char (String.list_ascii_of_string
                  (String.String (hex_digit_upper (n mod 16)) acc))).
  { cbn [String.list_ascii_of_string]. intros [E|E]; [|exact (Hacc E)].
    apply (hex_digit_not_space (n mod 16)); [apply Z.mod_pos_bound; lia | exact E]. }
  destruct (n <? 16); [exact Hc|]. apply IH; [apply Z.div_pos; lia | exact Hc].
Qed.

Lemma replace_space_no_space (s : string) :
  ~ In " "%char (String.list_ascii_of_string (replace_space s)).
Proof.
  induction s as [|c s IH]; cbn [replace_space]; [intros []|].
  destruct (Ascii.eqb c " ") eqn:E; cbn [String.list_ascii_of_string].
  - intros [H|[H|[H|H]]]; [vm_compute in H; discriminate .. | exact (IH H)].
  - intros [H|H]; [subst c; rewrite Ascii.eqb_refl in E; discriminate | exact (IH H)].
Qed.

(** Without an override, no emitted token contains a space byte: spaces
    become U+2581, and the other forms ([<0xHH>], the empty token) have
    none. *)
Lemma heuristic_tokens_no_space (items : list vocab_item) :
  Forall (fun tok => ~ In " "%char (String.list_ascii_of_string tok))
    (out_tokens (add_vocab_heuristic items)).
Proof.
  rewrite (proj1 (heuristic_vocab_positional items)).
  apply Forall_lookup. intros i tok Hi. rewrite list_lookup_imap in Hi.
  destruct (items !! i) as [it|]; [|discriminate]. injection Hi as <-.
  unfold heuristic_token. destruct (String.length (vbytes it) =? 0)%nat eqn:E0.
  - apply Nat.eqb_eq in E0. destruct (vbytes it); [intros []|discriminate].
  - destruct (_ && _); cbn [fst]; [|apply replace_space_no_space].
    rewrite !sl_append. intros Hin. apply in_app_or in Hin as [Hin|Hin].
    + vm_compute in Hin. destruct Hin as [H|[H|[H|[]]]]; discriminate.
    + apply in_app_or in Hin as [Hin|Hin].
      * revert Hin. apply hex_upper_aux_no_space; [destruct (vbytes it); unfold byte_at; lia | intros []].
      * vm_compute in Hin. destruct Hin as [H|[]]; discriminate.
Qed.

(** Reading a string of uppercase hexadecimal digits. *)
Definition hex_digit_value (c : ascii) : option Z :=
  let n := Z.of_nat (nat_of_ascii c) in
  if (48 <=? n) && (n <=? 57) then Some (n - 48)
  else if (65 <=? n) && (n <=? 70) then Some (n - 55)
  else None.

Fixpoint hex_value_from (acc : Z) (s : string) : option Z :=
  match s with
  | String.EmptyString => Some acc
  | String.String c r =>
    match hex_digit_value c with
    | Some d => hex_value_from (16 * acc + d) r
    | None => None
    end
  end.

Definition hex_value (s : string) : option Z :=
  match s with String.EmptyString => None | _ => hex_value_from 0 s end.

Lemma heuristic_token_byte (tokid : Z) (c : ascii) :
  3 <= tokid <= 258 ->
  heuristic_token tokid (String.String c EmptyString) =
    ("<0x" +:+ hex_upper (byte_at c) +:+ ">", 6).
Proof.
  intros [H1 H2]. unfold heuristic_token. cbn -[hex_upper byte_at].
  replace (tokid >=? 3) with true by (symmetry; apply Z.geb_le; lia).
  replace (tokid <=? 258) with true by (symmetry; apply Z.leb_le; lia).
  reflexivity.
Qed.

(** A one-byte token with id in [[3,258]] becomes [<0x], uppercase
    hexadecimal digits that read back as the byte, and [>]: one digit for
    a byte below 16, two otherwise. *)
Lemma byte_token_hex_round_trip (tokid : Z) (c : ascii) :
  3 <= tokid <= 258 ->
  exists h, heuristic_token tokid (String.String c EmptyString) = ("<0x" +:+ h +:+ ">", 6) /\
    hex_value h = Some (byte_at c) /\
    Z.of_nat (String.length h) = (if byte_at c <? 16 then 1 else 2).
Proof.
  intros Ht. exists (hex_upper (byte_at c)). split; [exact (heuristic_token_byte _ _ Ht)|].
  clear Ht. destruct c as [b0 b1 b2 b3 b4 b5 b6 b7].
  destruct b0, b1, b2, b3, b4, b5, b6, b7; split; vm_compute; reflexivity.
Qed.

Lemma byte_token_hex_round_trip_witness :
  exists h, heuristic_token 200 (String.String (ascii_of_nat 171) EmptyString) = ("<0x" +:+ h +:+ ">", 6) /\
    hex_value h = Some 171 /\ Z.of_nat (String.length h) = 2.
Proof. exact (byte_token_hex_round_trip 200 (ascii_of_nat 171) ltac:(lia)). Defined.

(* ------------------------------------------------------------------------- *)
(** ** The override vocabulary: the item count *)

(** With an override, [add_vocab] fails with the count assertion exactly
    when the number of items differs from [n_vocab], and succeeds
    otherwise. *)
Lemma override_count_checked (n_vocab : Z) (items : list override_item) :
  (Z.of_nat (length items) <> n_vocab ->
     add_vocab_override n_vocab items =
       Err (AssertionError "Override vocab has a different number of items than hyperparameters")) /\
  (Z.of_nat (length items) = n_vocab -> exists recs, add_vocab_override n_vocab items = Ok recs).
Proof.
  unfold add_vocab_override. rewrite override_loop_lists. cbn [fst snd].
  rewrite length_map. split; intros Hn.
  - apply Z.eqb_neq in Hn. rewrite Hn. reflexivity.
  - apply Z.eqb_eq in Hn. rewrite Hn. eexists. reflexivity.
Qed.

Lemma override_count_checked_witness :
  add_vocab_override 3 [OvPair "a" 0; OvTriple "b" 0 1] =
    Err (AssertionError "Override vocab has a different number of items than hyperparameters") /\
  exists recs, add_vocab_override 2 [OvPair "a" 0; OvTriple "b" 0 1] = Ok recs.
Proof.
  split.
  - apply (proj1 (override_count_checked 3 [OvPair "a" 0; OvTriple "b" 0 1])).
    cbn. discriminate.
  - apply (proj2 (override_count_checked 2 [OvPair "a" 0; OvTriple "b" 0 1])).
    reflexivity.
Defined.

(* ------------------------------------------------------------------------- *)
(** ** The tensor records *)

Lemma add_tensors_loop_records (nm : string -> option string) (data : string)
    (ts : list Tensor) : forall suffix recs,
  (suffix = None \/ suffix = Some ".weight"%string \/ suffix = Some ".bias"%string) ->
  add_tensors_loop nm data suffix ts = Ok recs ->
  Forall2 (fun t r =>
    utf8_valid (string_bytes (name t)) = true /\
    rec_dtype r = dtype t /\
    slice_num data (start_offset t) (padd (start_offset t) (len_bytes t)) = Ok (rec_payload r) /\
    exists base mapped suf, nm base = Some mapped /\ rec_name r = (mapped +:+ suf)%string /\
      (if ends_with ".weight" (name t) then base = drop_last 7 (name t) /\ suf = ".weight"%string
       else if ends_with ".bias" (name t) then base = drop_last 5 (name t) /\ suf = ".bias"%string
       else base = name t /\ (suf = ".weight"%string \/ suf = ".bias"%string))) ts recs.
Proof.
  induction ts as [|t ts IH]; intros suffix recs Hs H; cbn [add_tensors_loop] in H.
  - injection H as <-. constructor.
  - destruct (negb _) eqn:Eu; [discriminate|]. apply negb_false_iff in Eu.
    destruct (ends_with ".weight" (name t)) eqn:Ew;
      [|destruct (ends_with ".bias" (name t)) eqn:Eb];
      cbn beta iota in H.
    + destruct (nm (drop_last 7 (name t))) as [mapped|] eqn:Em; [|discriminate].
      inv_bind_as H payload Hp. inv_bind_as H recs' Hr. injection H as <-.
      constructor; [|eapply IH; [|exact Hr]; auto].
      do 3 (split; [assumption || reflexivity|]).
      rewrite Ew. exists (drop_last 7 (name t)), mapped, ".weight"%string. auto.
    + destruct (nm (drop_last 5 (name t))) as [mapped|] eqn:Em; [|discriminate].
      inv_bind_as H payload Hp. inv_bind_as H recs' Hr. injection H as <-.
      constructor; [|eapply IH; [|exact Hr]; auto].
      do 3 (split; [assumption || reflexivity|]).
      rewrite Ew, Eb. exists (drop_last 5 (name t)), mapped, ".bias"%string. auto.
    + destruct (nm (name t)) as [mapped|] eqn:Em; [|discriminate].
      destruct suffix as [suf|]; [|discriminate].
      inv_bind_as H payload Hp. inv_bind_as H recs' Hr. injection H as <-.
      constructor; [|eapply IH; [|exact Hr]; exact Hs].
      do 3 (split; [assumption || reflexivity|]).
      rewrite Ew, Eb. exists (name t), mapped, suf. split; [exact Em|]. split; [reflexivity|].
      split; [reflexivity|]. destruct Hs as [Hs|[Hs|Hs]]; [discriminate| |];
        injection Hs as ->; auto.
Qed.

(** The suffix [add_tensors] recognises in a tensor name, if any. *)
Definition name_suffix (n : string) : option string :=
  if ends_with ".weight" n then Some ".weight"%string
  else if ends_with ".bias" n then Some ".bias"%string
  else None.

(** The name [add_tensors] looks up: the tensor name without that suffix. *)
Definition base_name (n : string) : string :=
  if ends_with ".weight" n then drop_last 7 n
  else if ends_with ".bias" n then drop_last 5 n
  else n.

(** The last suffix among the names of [ts], or [acc] when none has one. *)
Fixpoint suffix_seen (acc : option string) (ts : list Tensor) : option string :=
  match ts with
  | [] => acc
  | t :: r => suffix_seen (match name_suffix (name t) with Some s => Some s | None => acc end) r
  end.

Lemma add_tensors_loop_suffix (nm : string -> option string) (data : string)
    (ts : list Tensor) : forall suffix recs,
  add_tensors_loop nm data suffix ts = Ok recs ->
  forall i t r, ts !! i = Some t -> recs !! i = Some r ->
  exists mapped suf, nm (base_name (name t)) = Some mapped /\
    rec_name r = (mapped +:+ suf)%string /\ suffix_seen suffix (take (S i) ts) = Some suf.
Proof.
  induction ts as [|t0 ts IH]; intros suffix recs H i t r Ht Hr; [discriminate|].
  cbn [add_tensors_loop] in H.
  destruct (negb _) eqn:Eu; [discriminate|].
  cbn [take suffix_seen]. unfold base_name, name_suffix.
  destruct (ends_with ".weight" (name t0)) eqn:Ew;
    [|destruct (ends_with ".bias" (name t0)) eqn:Eb]; cbn beta iota in H.
  - destruct (nm (drop_last 7 (name t0))) as [mapped|] eqn:Em; [|discriminate].
    inv_bind_as H payload Hp. inv_bind_as H recs' Hr'. injection H as <-.
    destruct i as [|i].
    + injection Ht as <-. injection Hr as <-. rewrite Ew.
      exists mapped, ".weight"%string. auto.
    + cbn in Ht, Hr. destruct (IH _ _ Hr' i t r Ht Hr) as (mp & sf & H1 & H2 & H3).
      exists mp, sf. unfold base_name in H1. auto.
  - destruct (nm (drop_last 5 (name t0))) as [mapped|] eqn:Em; [|discriminate].
    inv_bind_as H payload Hp. inv_bind_as H recs' Hr'. injection H as <-.
    destruct i as [|i].
    + injection Ht as <-. injection Hr as <-. rewrite Ew, Eb.
      exists mapped, ".bias"%string. auto.
    + cbn in Ht, Hr. destruct (IH _ _ Hr' i t r Ht Hr) as (mp & sf & H1 & H2 & H3).
      exists mp, sf. unfold base_name in H1. auto.
  - destruct (nm (name t0)) as [mapped|] eqn:Em; [|discriminate].
    destruct suffix as [suf|]; [|discriminate].
    inv_bind_as H payload Hp. inv_bind_as H recs' Hr'. injection H as <-.
    destruct i as [|i].
    + injection Ht as <-. injection Hr as <-. rewrite Ew, Eb.
      exists mapped, suf. auto.
    + cbn in Ht, Hr. destruct (IH _ _ Hr' i t r Ht Hr) as (mp & sf & H1 & H2 & H3).
      exists mp, sf. unfold base_name in H1. auto.
Qed.

(** When [add_tensors] succeeds, there is one record per tensor, and the
    [i]-th record comes from the [i]-th tensor: its name is valid UTF-8,
    the record keeps its type, the payload is the file's slice at its
    start offset and byte length, and the record name is the canonical
    name of its base name (the name without a [.weight] or [.bias] suffix)
    followed by the last such suffix among the names of tensors [0..i]
    (its own, when it has one).  The first tensor's name ends in
    [.weight] or [.bias]. *)
Lemma add_tensors_records (nm : string -> option string) (data : string)
    (ts : list Tensor) (recs : list tensor_record) :
  add_tensors nm data ts = Ok recs ->
  length recs = length ts /\
  (forall i t r, ts !! i = Some t -> recs !! i = Some r ->
     utf8_valid (string_bytes (name t)) = true /\
     rec_dtype r = dtype t /\
     slice_num data (start_offset t) (padd (start_offset t) (len_bytes t)) = Ok (rec_payload r) /\
     exists mapped suf, nm (base_name (name t)) = Some mapped /\
       rec_name r = (mapped +:+ suf)%string /\ suffix_seen None (take (S i) ts) = Some suf) /\
  (forall t rest, ts = t :: rest ->
     ends_with ".weight" (name t) = true \/ ends_with ".bias" (name t) = true).
Proof.
  intros H.
  pose proof (add_tensors_loop_records nm data ts None recs (or_introl eq_refl) H) as F.
  split; [symmetry; exact (Forall2_length _ _ _ F)|]. split.
  - intros i t r Ht Hr.
    destruct (Forall2_lookup_lr _ _ _ _ _ _ F Ht Hr) as (U & D & P & _).
    split; [exact U|]. split; [exact D|]. split; [exact P|].
    exact (add_tensors_loop_suffix nm data ts None recs H i t r Ht Hr).
  - intros t rest ->. unfold add_tensors in H. cbn [add_tensors_loop] in H.
    destruct (negb _); [discriminate|].
    destruct (ends_with ".weight" (name t)); [auto|].
    destruct (ends_with ".bias" (name t)); [auto|]. cbn beta iota in H.
    destruct (nm (name t)); discriminate.
Qed.

Lemma add_tensors_records_witness :
  exists recs r,
    add_tensors llama_name_map_globals "abc"
      [mk_tensor "output.weight" [4; 8] 0 (pint 0) (pint 2);
       mk_tensor "norm" [4] 0 (pint 2) (pint 1)] = Ok recs /\
    recs !! 1%nat = Some r /\ rec_name r = "output_norm.weight"%string /\
    exists mapped suf, llama_name_map_globals (base_name "norm") = Some mapped /\
      rec_name r = (mapped +:+ suf)%string /\
      suffix_seen None (take 2 [mk_tensor "output.weight" [4; 8] 0 (pint 0) (pint 2);
                                mk_tensor "norm" [4] 0 (pint 2) (pint 1)]) = Some suf.
Proof.
  destruct (add_tensors llama_name_map_globals "abc"
      [mk_tensor "output.weight" [4; 8] 0 (pint 0) (pint 2);
       mk_tensor "norm" [4] 0 (pint 2) (pint 1)]) as [recs|e] eqn:E;
    [|vm_compute in E; discriminate].
  pose proof (proj1 (proj2 (add_tensors_records _ _ _ _ E))) as P.
  assert (R := E). vm_compute in R. injection R as <-.
  exists [mk_tensor_record "output.weight" [8; 4] 0 "ab";
          mk_tensor_record "output_norm.weight" [4] 0 "c"],
    (mk_tensor_record "output_norm.weight" [4] 0 "c").
  split; [reflexivity|]. split; [reflexivity|]. split; [reflexivity|].
  exact (proj2 (proj2 (proj2 (P 1%nat (mk_tensor "norm" [4] 0 (pint 2) (pint 1)) _ eq_refl eq_refl)))).
Defined.

(* ------------------------------------------------------------------------- *)
(** ** The parameters *)

(** With zero attention heads, [add_params] fails with
    [ZeroDivisionError] when it computes the rotary dimension count
    [n_embd // n_head]: without an override, and with an override that
    passes the consistency checks. *)
Lemma add_params_zero_heads {F : Type} (py_float : string -> result F)
    (cfg : ggml_cfg) (hp : Hyperparameters) (n_kv_head : Z) :
  n_head hp = 0 ->
  add_params py_float cfg hp None n_kv_head = Err ZeroDivisionError /\
  (forall p : params_override F,
     po_n_embd p = n_embd hp -> po_n_layer p = n_layer hp -> po_n_head p = n_head hp ->
     add_params py_float cfg hp (Some p) n_kv_head = Err ZeroDivisionError).
Proof.
  intros H0. unfold add_params, py_floordiv. rewrite H0. split; [reflexivity|].
  intros p E1 E2 E3. rewrite E1, E2, E3, !Z.eqb_refl. reflexivity.
Qed.

Lemma add_params_zero_heads_witness :
  add_params (fun _ => Ok 0) (mk_cfg None None "m.bin" 1 "1e-6" 2048)
    (mk_hp 32000 4096 256 0 32 128 1 11008) None 0 = Err ZeroDivisionError.
Proof.
  exact (proj1 (add_params_zero_heads (fun _ => Ok 0) (mk_cfg None None "m.bin" 1 "1e-6" 2048)
    (mk_hp 32000 4096 256 0 32 128 1 11008) 0 eq_refl)).
Defined.

(** With an override, [add_params] fails with the mismatch assertion
    exactly when the override's [n_embd], [n_layer] or [n_head] differs
    from the file's; when they agree and [n_head] is not zero it succeeds
    and reports the rotary dimension count [n_embd // n_head] and the
    override's key/value head count. *)
Lemma add_params_override_check {F : Type} (py_float : string -> result F)
    (cfg : ggml_cfg) (hp : Hyperparameters) (p : params_override F) (n_kv_head : Z) :
  (add_params py_float cfg hp (Some p) n_kv_head = Err (AssertionError hp_mismatch) <->
     po_n_embd p <> n_embd hp \/ po_n_layer p <> n_layer hp \/ po_n_head p <> n_head hp) /\
  (po_n_embd p = n_embd hp -> po_n_layer p = n_layer hp -> po_n_head p = n_head hp ->
   n_head hp <> 0 ->
   exists calls, add_params py_float cfg hp (Some p) n_kv_head = Ok calls /\
     In (AddRopeDimensionCount (n_embd hp / n_head hp)) calls /\
     In (AddHeadCountKv (po_n_head_kv p)) calls).
Proof.
  unfold add_params, py_floordiv. split.
  - destruct (po_n_embd p =? n_embd hp) eqn:E1; [|split; [intros _; left; apply Z.eqb_neq, E1 | reflexivity]].
    destruct (po_n_layer p =? n_layer hp) eqn:E2;
      [|split; [intros _; right; left; apply Z.eqb_neq, E2 | reflexivity]].
    destruct (po_n_head p =? n_head hp) eqn:E3;
      [|split; [intros _; right; right; apply Z.eqb_neq, E3 | reflexivity]].
    apply Z.eqb_eq in E1, E2, E3. cbn [py_assert bind].
    split; [destruct (po_n_head p =? 0); discriminate|].
    intros [H|[H|H]]; contradiction.
  - intros E1 E2 E3 Hn. rewrite E1, E2, E3, !Z.eqb_refl. cbn [py_assert bind].
    rewrite (proj2 (Z.eqb_neq _ _) Hn). eexists. split; [reflexivity|].
    split; apply in_or_app; right; cbn; tauto.
Qed.

Lemma add_params_override_check_witness :
  add_params (fun _ => Ok 0) (mk_cfg None None "m.bin" 1 "1e-6" 2048)
    (mk_hp 32000 4096 256 32 32 128 1 11008) (Some (mk_po 4096 4096 40 11008 32 8 0)) 0 =
    Err (AssertionError hp_mismatch) /\
  exists calls,
    add_params (fun _ => Ok 0) (mk_cfg None None "m.bin" 1 "1e-6" 2048)
      (mk_hp 32000 4096 256 32 32 128 1 11008) (Some (mk_po 4096 4096 32 11008 32 8 0)) 0 = Ok calls /\
    In (AddRopeDimensionCount 128) calls /\ In (AddHeadCountKv 8) calls.
Proof.
  split.
  - apply (proj2 (proj1 (add_params_override_check (fun _ => Ok 0) (mk_cfg None None "m.bin" 1 "1e-6" 2048)
      (mk_hp 32000 4096 256 32 32 128 1 11008) (mk_po 4096 4096 40 11008 32 8 0) 0))).
    cbn. right. left. discriminate.
  - exact (proj2 (add_params_override_check (fun _ => Ok 0) (mk_cfg None None "m.bin" 1 "1e-6" 2048)
      (mk_hp 32000 4096 256 32 32 128 1 11008) (mk_po 4096 4096 32 11008 32 8 0) 0)
      eq_refl eq_refl eq_refl ltac:(discriminate)).
Defined.

(** With an override, the converter's parameter output does not depend on
    the [--gqa], [--eps] and [--context-length] options: two
    configurations with the same name, description and input file name
    give the same result. *)
Lemma override_ignores_cfg {F : Type} (py_float : string -> result F)
    (cfg1 cfg2 : ggml_cfg) (hp : Hyperparameters) (p : params_override F) :
  cfg_name cfg1 = cfg_name cfg2 -> cfg_desc cfg1 = cfg_desc cfg2 ->
  cfg_input_name cfg1 = cfg_input_name cfg2 ->
  converter_params py_float cfg1 hp (Some p) = converter_params py_float cfg2 hp (Some p).
Proof.
  intros E1 E2 E3. unfold converter_params, add_params. cbn [option_map resolve_n_kv_head bind].
  rewrite E1, E2, E3. reflexivity.
Qed.

Lemma override_ignores_cfg_witness :
  converter_params (fun _ => Err (ValueError "could not convert string to float")) (mk_cfg None None "m.bin" 3 "x" 512)
    (mk_hp 32000 4096 256 32 32 128 1 11008) (Some (mk_po 4096 4096 32 11008 32 8 0)) =
  converter_params (fun _ => Err (ValueError "could not convert string to float")) (mk_cfg None None "m.bin" 1 "1e-5" 4096)
    (mk_hp 32000 4096 256 32 32 128 1 11008) (Some (mk_po 4096 4096 32 11008 32 8 0)).
Proof. exact (override_ignores_cfg _ _ _ _ _ eq_refl eq_refl eq_refl). Defined.

(** When [add_tensors] succeeds, a tensor's payload is cut at the end of
    the file: it has [len_bytes] bytes when the file holds them and only
    the bytes up to the end of the file otherwise, with no error for a
    short payload. *)
Lemma add_tensors_payload_clipped (nm : string -> option string) (data : string)
    (ts : list Tensor) (recs : list tensor_record) :
  add_tensors nm data ts = Ok recs ->
  Forall2 (fun t r =>
    0 <= val (start_offset t) -> 0 <= val (len_bytes t) ->
    val (start_offset t) + val (len_bytes t) < 2 ^ 63 ->
    blen (rec_payload r) =
      Z.min (val (len_bytes t)) (Z.max 0 (blen data - val (start_offset t)))) ts recs.
Proof.
  intros H. apply (add_tensors_loop_records nm data ts None recs (or_introl eq_refl)) in H.
  eapply Forall2_impl; [exact H|]. intros t r (_ & _ & Hs & _) H1 H2 H3.
  destruct (start_offset t) as [ka a], (len_bytes t) as [kb b]. cbn [val] in *.
  unfold slice_num, padd, mk_num in Hs. cbn [kind val join_kind] in Hs.
  destruct ka, kb; cbn [join_kind] in Hs; try discriminate; injection Hs as <-;
    rewrite ?wrap64_id by lia; rewrite py_slice_length by lia; lia.
Qed.

Lemma add_tensors_payload_clipped_witness :
  exists recs r,
    add_tensors llama_name_map_globals "abc"
      [mk_tensor "output.weight" [5] 0 (pint 1) (PyNum KI64 5)] = Ok recs /\
    recs = [r] /\ rec_payload r = "bc"%string /\
    blen (rec_payload r) = Z.min 5 (Z.max 0 (blen "abc" - 1)).
Proof.
  destruct (add_tensors llama_name_map_globals "abc"
      [mk_tensor "output.weight" [5] 0 (pint 1) (PyNum KI64 5)]) as [recs|e] eqn:E;
    [|vm_compute in E; discriminate].
  pose proof (add_tensors_payload_clipped _ _ _ _ E) as F.
  assert (R := E). vm_compute in R. injection R as <-.
  inversion F as [|t r ts' rs' Hr Hrest]; subst.
  exists [mk_tensor_record "output.weight" [5] 0 "bc"], (mk_tensor_record "output.weight" [5] 0 "bc").
  split; [reflexivity|]. split; [reflexivity|]. split; [reflexivity|].
  exact (Hr ltac:(cbn; lia) ltac:(cbn; lia) ltac:(cbn; lia)).
Defined.

(** Converting a decoded file without a vocabulary override emits exactly
    as many tokens, scores and token types as the u32 at bytes 8 to 11 of
    the file (its [n_vocab]) says, and the scores are the file's scores in
    order. *)
Lemma decoded_heuristic_vocab_counts (fuel : nat) (data : string) (m : GGMLV3Model) (off : pynum) :
  ggml_decode fuel data = Ok (m, off) ->
  n_vocab (hyperparameters m) = le_value (String.substring 8 4 data) /\
  length (out_tokens (add_vocab_heuristic (vocab m))) = Z.to_nat (n_vocab (hyperparameters m)) /\
  out_scores (add_vocab_heuristic (vocab m)) = map vscore (vocab m) /\
  length (out_scores (add_vocab_heuristic (vocab m))) = Z.to_nat (n_vocab (hyperparameters m)) /\
  exists tys, out_toktypes (add_vocab_heuristic (vocab m)) = Some tys /\
    length tys = Z.to_nat (n_vocab (hyperparameters m)).
Proof.
  intros H. destruct (decode_hparams_vocab_facts _ _ _ _ H) as [Hh Hl].
  unfold add_vocab_heuristic. rewrite heuristic_loop_imap.
  cbn [out_tokens out_scores out_toktypes]. rewrite length_imap, length_map, Hl.
  split.
  - apply (f_equal (hd 0)) in Hh. cbn [split_u32 hd] in Hh. rewrite Hh. f_equal.
    apply sl_inj. rewrite !substring_sl, drop_0, take_take. reflexivity.
  - split; [reflexivity|]. split; [reflexivity|]. split; [reflexivity|].
    eexists. split; [reflexivity|]. rewrite length_imap, Hl. reflexivity.
Qed.

Lemma decoded_heuristic_vocab_counts_witness :
  exists m off, ggml_decode 2 ff_only_buffer = Ok (m, off) /\
    length (out_tokens (add_vocab_heuristic (vocab m))) = Z.to_nat (n_vocab (hyperparameters m)).
Proof.
  destruct (ggml_decode 2 ff_only_buffer) as [[m off]|e] eqn:E; [|vm_compute in E; discriminate].
  exists m, off. split; [reflexivity|].
  exact (proj1 (proj2 (decoded_heuristic_vocab_counts _ _ _ _ E))).
Defined.
